(** * Chat message schema and response-metrics tracker

    A shallow embedding of [util/pydantic_classes.py] and [util/metrics.py].

    - Python values that reach the code dynamically (constructor keyword
      arguments, the values of [Event.payload]) are elements of [pyval].
    - Exceptions are the [Raised] branch of [outcome]; computations that
      only read are in the [outcome] monad, computations that touch the
      object store, the wall clock or the console are in [M].
    - A [str] is a [string], one [ascii] per character; an [int] is a [Z];
      a [float] is a binary64 [PrimFloat.float].
    - [BotMetrics] instances are mutable and handed around by reference:
      they live in the [heap] of the [Store], addressed by a [loc].
    - [TrackChatbotResponseMetrics] instances are mutable objects too:
      they live in the [trackers] of the [World], and the code of
      [metrics.py] that reads or assigns their attributes is in [W]. *)

From Stdlib Require Import ZArith.
From Stdlib Require PrimFloat.
From stdpp Require Import base option list strings gmap.

Local Open Scope Z_scope.

Abbreviation float := PrimFloat.float.

(* ===================================================================== *)
(** ** Exceptions and the two monads                                      *)
(* ===================================================================== *)

Inductive exn : Type :=
| ValidationError            (* pydantic: constructor arguments rejected *)
| AttributeError             (* attribute read on an object without it   *)
| KeyError                   (* d[k] with k not in d                     *)
| TypeError                  (* builtin applied to a value it rejects    *)
| RuntimeError (msg : string)(* anything the tracked body itself raises  *).

Inductive outcome (A : Type) : Type :=
| Normal (a : A)
| Raised (e : exn).
Arguments Normal {A} a.
Arguments Raised {A} e.

Definition obind {A B} (c : outcome A) (k : A -> outcome B) : outcome B :=
  match c with
  | Normal a => k a
  | Raised e => Raised e
  end.

#[global] Instance outcome_ret : MRet outcome := fun A a => Normal a.
#[global] Instance outcome_bind : MBind outcome := fun A B k c => obind c k.

(** [functools.reduce(f, xs, init)] for a step [f] that may raise. *)
Fixpoint functools_reduce {A B} (f : A -> B -> outcome A)
    (xs : list B) (init : A) : outcome A :=
  match xs with
  | [] => Normal init
  | x :: rest => obind (f init x) (fun acc => functools_reduce f rest acc)
  end.

(** Element-wise evaluation, left to right, stopping at the first raise. *)
Fixpoint traverse {A B} (f : A -> outcome B) (xs : list A) : outcome (list B) :=
  match xs with
  | [] => Normal []
  | x :: rest =>
      obind (f x) (fun y => obind (traverse f rest) (fun ys => Normal (y :: ys)))
  end.

Definition sumZ (zs : list Z) : Z := foldr Z.add 0 zs.

(* ===================================================================== *)
(** ** pydantic_classes.py: payload classes                               *)
(* ===================================================================== *)

Module Choice.
Record t := mk { label : string; value : string }.
End Choice.

Module BotButtonMessage.
Record t := mk { text : string; choices : list Choice.t; active : bool }.
End BotButtonMessage.

Module BotDropdownMessage.
Record t := mk { text : string; choices : list Choice.t; active : bool }.
End BotDropdownMessage.

Module BotHTMLMessage.
Record t := mk { html : string }.
End BotHTMLMessage.

Module BotImageMessage.
Record t := mk { url : string }.
End BotImageMessage.

Module BotTextMessage.
Record t := mk { text : string; useMarkdown : bool }.
End BotTextMessage.

Module BotMessageTypes.
Inductive t := text | image | html | button | dropdown.

Definition eqb (a b : t) : bool :=
  match a, b with
  | text, text | image, image | html, html
  | button, button | dropdown, dropdown => true
  | _, _ => false
  end.

(** The member whose value is the given string, if any. *)
Definition of_value (s : string) : option t :=
  if String.eqb s "text" then Some text
  else if String.eqb s "image" then Some image
  else if String.eqb s "html" then Some html
  else if String.eqb s "button" then Some button
  else if String.eqb s "dropdown" then Some dropdown
  else None.
End BotMessageTypes.

(** [BotPayload = Union[BotTextMessage, BotImageMessage, BotHTMLMessage,
    BotButtonMessage, BotDropdownMessage]]: an instance of one of the five
    classes. *)
Inductive BotPayload : Type :=
| TextPayload (m : BotTextMessage.t)
| ImagePayload (m : BotImageMessage.t)
| HTMLPayload (m : BotHTMLMessage.t)
| ButtonPayload (m : BotButtonMessage.t)
| DropdownPayload (m : BotDropdownMessage.t).

Module Directions.
Inductive t := incoming | outgoing.
End Directions.

(* ===================================================================== *)
(** ** Python values                                                      *)
(* ===================================================================== *)

(** The fragment of Python's value universe the code is fed here: [None],
    [bool], [int], [float], [str], [list], members of the two enums and
    instances of the schema classes.  Dicts, tuples, bytes and sets given
    as values are outside the fragment; so is, in particular, the dict of
    field values that pydantic converts to an instance where a field is
    typed with a schema class. *)
#[warnings="-register-all"]
Inductive pyval : Type :=
| PyNone
| PyBool (b : bool)
| PyInt (z : Z)
| PyFloat (f : float)
| PyStr (s : string)
| PyList (xs : list pyval)
| PyMessageType (m : BotMessageTypes.t)
| PyDirection (d : Directions.t)
| PyChoice (c : Choice.t)
| PyPayload (p : BotPayload).

(** The value of a member of [BotMessageTypes]. *)
Definition BotMessageTypes_value (m : BotMessageTypes.t) : string :=
  match m with
  | BotMessageTypes.text => "text"
  | BotMessageTypes.image => "image"
  | BotMessageTypes.html => "html"
  | BotMessageTypes.button => "button"
  | BotMessageTypes.dropdown => "dropdown"
  end.

(** The value of a member of [Directions]. *)
Definition Directions_value (d : Directions.t) : string :=
  match d with
  | Directions.incoming => "incoming"
  | Directions.outgoing => "outgoing"
  end.

(** [len(v)] *)
Definition py_len (v : pyval) : outcome Z :=
  match v with
  | PyStr s => Normal (Z.of_nat (String.length s))
  | PyList xs => Normal (Z.of_nat (length xs))
  | _ => Raised TypeError
  end.

(** [d[k]] on a [Dict[str, Any]] *)
Definition py_getitem (d : gmap string pyval) (k : string) : outcome pyval :=
  match d !! k with
  | Some v => Normal v
  | None => Raised KeyError
  end.

(** [v.text]: the three payload classes that declare a [text] field have
    it; every other value of the fragment raises. *)
Definition getattr_text (v : pyval) : outcome pyval :=
  match v with
  | PyPayload (TextPayload m) => Normal (PyStr (BotTextMessage.text m))
  | PyPayload (ButtonPayload m) => Normal (PyStr (BotButtonMessage.text m))
  | PyPayload (DropdownPayload m) => Normal (PyStr (BotDropdownMessage.text m))
  | _ => Raised AttributeError
  end.

(** [v != member] for a member of the plain [Enum] [BotMessageTypes]:
    members compare equal to themselves only, never to their value. *)
Definition ne_BotMessageTypes (v : pyval) (member : BotMessageTypes.t) : bool :=
  match v with
  | PyMessageType m => negb (BotMessageTypes.eqb m member)
  | _ => true
  end.

(* ===================================================================== *)
(** ** pydantic: field validation                                         *)
(* ===================================================================== *)

(** Validation of keyword arguments, in pydantic's default (lax) mode, on
    the values of the fragment.  Whatever field is rejected, the
    constructor raises the one [ValidationError]. *)

(** [Field(default, ...)]: an absent argument takes the default as it is
    (defaults are not validated); [Field(..., ...)] has no default and the
    argument is required. *)
Definition Field {A} (default : option A) (validate : pyval -> outcome A)
    (arg : option pyval) : outcome A :=
  match arg with
  | Some v => validate v
  | None =>
      match default with
      | Some d => Normal d
      | None => Raised ValidationError
      end
  end.

(** A [str] field takes a string, or a member of an enum whose value is a
    string, for which it stores the value. *)
Definition validate_str (v : pyval) : outcome string :=
  match v with
  | PyStr s => Normal s
  | PyMessageType m => Normal (BotMessageTypes_value m)
  | PyDirection d => Normal (Directions_value d)
  | _ => Raised ValidationError
  end.

Definition ascii_lower (a : Ascii.ascii) : Ascii.ascii :=
  let n := Ascii.nat_of_ascii a in
  if ((65 <=? n)%nat && (n <=? 90)%nat)%bool then Ascii.ascii_of_nat (n + 32) else a.

Fixpoint lower (s : string) : string :=
  match s with
  | EmptyString => EmptyString
  | String a rest => String (ascii_lower a) (lower rest)
  end.

Definition str_as_bool (s : string) : outcome bool :=
  let s' := lower s in
  if existsb (String.eqb s') ["0"; "off"; "f"; "false"; "n"; "no"]%string then Normal false
  else if existsb (String.eqb s') ["1"; "on"; "t"; "true"; "y"; "yes"]%string then Normal true
  else Raised ValidationError.

Definition validate_bool (v : pyval) : outcome bool :=
  match v with
  | PyBool b => Normal b
  | PyInt 0 => Normal false
  | PyInt 1 => Normal true
  | PyFloat f =>
      if PrimFloat.eqb f PrimFloat.zero then Normal false
      else if PrimFloat.eqb f PrimFloat.one then Normal true
      else Raised ValidationError
  | PyStr s => str_as_bool s
  | _ => Raised ValidationError
  end.

Definition validate_Choice (v : pyval) : outcome Choice.t :=
  match v with
  | PyChoice c => Normal c
  | _ => Raised ValidationError
  end.

(** [List[T]]: a list, of any length, whose every item validates as [T]. *)
Definition validate_List {A} (item : pyval -> outcome A) (v : pyval) : outcome (list A) :=
  match v with
  | PyList xs => traverse item xs
  | _ => Raised ValidationError
  end.

(** An enum field takes a member, or the value of a member. *)
Definition validate_BotMessageTypes (v : pyval) : outcome pyval :=
  match v with
  | PyMessageType m => Normal (PyMessageType m)
  | PyStr s =>
      match BotMessageTypes.of_value s with
      | Some m => Normal (PyMessageType m)
      | None => Raised ValidationError
      end
  | _ => Raised ValidationError
  end.

(** The union takes an instance of any of its five members, as it is. *)
Definition validate_BotPayload (v : pyval) : outcome pyval :=
  match v with
  | PyPayload p => Normal (PyPayload p)
  | _ => Raised ValidationError
  end.

(* ===================================================================== *)
(** ** pydantic_classes.py: constructors of the payload classes           *)
(* ===================================================================== *)

Definition new_Choice (label value : option pyval) : outcome Choice.t :=
  l ← Field (Some "") validate_str label;
  v ← Field (Some "") validate_str value;
  mret (Choice.mk l v).

Definition new_BotButtonMessage (text choices active : option pyval)
    : outcome BotButtonMessage.t :=
  t ← Field (Some "") validate_str text;
  c ← Field None (validate_List validate_Choice) choices;
  a ← Field (Some true) validate_bool active;
  mret (BotButtonMessage.mk t c a).

Definition new_BotDropdownMessage (text choices active : option pyval)
    : outcome BotDropdownMessage.t :=
  t ← Field (Some "") validate_str text;
  c ← Field (Some []) (validate_List validate_Choice) choices;
  a ← Field (Some true) validate_bool active;
  mret (BotDropdownMessage.mk t c a).

Definition new_BotHTMLMessage (html : option pyval) : outcome BotHTMLMessage.t :=
  h ← Field (Some "") validate_str html;
  mret (BotHTMLMessage.mk h).

Definition new_BotImageMessage (url : option pyval) : outcome BotImageMessage.t :=
  u ← Field (Some "") validate_str url;
  mret (BotImageMessage.mk u).

Definition new_BotTextMessage (text useMarkdown : option pyval)
    : outcome BotTextMessage.t :=
  t ← Field (Some "Hello World") validate_str text;
  u ← Field (Some true) validate_bool useMarkdown;
  mret (BotTextMessage.mk t u).

(* ===================================================================== *)
(** ** pydantic_classes.py: BotMessage, Event, BotMetrics                 *)
(* ===================================================================== *)

Module BotMessage.
(** Both fields hold Python values: a validated argument is an enum
    member, respectively a payload instance, but the declared defaults
    are the plain strings ["text"] and ["Hello World"]. *)
Record t := mk { type : pyval; payload : pyval }.

Definition new (type payload : option pyval) : outcome t :=
  ty ← Field (Some (PyStr "text")) validate_BotMessageTypes type;
  pl ← Field (Some (PyStr "Hello World")) validate_BotPayload payload;
  mret (mk ty pl).


Definition messageSize (self : t) : outcome Z :=
  if ne_BotMessageTypes (type self) BotMessageTypes.text then Normal 0
  else (txt ← getattr_text (payload self); py_len txt).
End BotMessage.

(** A [datetime], as its count of microseconds since the epoch. *)
Definition datetime : Type := Z.

Module Event.
Record t := mk {
  userId : string;
  conversationId : string;
  id : string;
  sentOn : datetime;
  direction : pyval;
  payload : gmap string pyval;
  botReply : list BotMessage.t
}.
End Event.

Module BotMetrics.
Record t := mk {
  event : option Event.t;
  startTime : option float;
  endTime : option float;
  success : bool
}.

(** [BotMetrics()] *)
Definition new : t := mk None None None true.

Definition set_event (v : option Event.t) (self : t) : t :=
  mk v (startTime self) (endTime self) (success self).
Definition set_startTime (v : option float) (self : t) : t :=
  mk (event self) v (endTime self) (success self).
Definition set_endTime (v : option float) (self : t) : t :=
  mk (event self) (startTime self) v (success self).
Definition set_success (v : bool) (self : t) : t :=
  mk (event self) (startTime self) (endTime self) v.

(** Reading an attribute of [self.event]: [None] has none. *)
Definition event_attr {A} (self : t) (attr : Event.t -> A) : outcome A :=
  match event self with
  | Some e => Normal (attr e)
  | None => Raised AttributeError
  end.

Definition responseTime (self : t) : pyval :=
  match startTime self, endTime self with
  | Some s, Some e => PyFloat (PrimFloat.sub e s)
  | _, _ => PyInt 0
  end.

Definition userInputSize (self : t) : outcome Z :=
  d ← event_attr self Event.payload;
  txt ← py_getitem d "text";
  py_len txt.

Definition botOutputSize (self : t) : outcome Z :=
  replies ← event_attr self Event.botReply;
  functools_reduce
    (fun s r => size ← BotMessage.messageSize r; mret (s + size))
    replies 0.

Definition userId (self : t) : outcome string :=
  event_attr self Event.userId.

Definition conversationId (self : t) : outcome string :=
  event_attr self Event.conversationId.

Definition inputMessageType (self : t) : outcome pyval :=
  d ← event_attr self Event.payload;
  py_getitem d "type".
End BotMetrics.

(* ===================================================================== *)
(** ** The object store and the monad of stateful code                   *)
(* ===================================================================== *)

Abbreviation loc := nat.

(** What [PrettyTable] is given: one cell per column.  The two glyphs of
    the success column and the decorated inference time are kept as cells
    of their own rather than as strings. *)
Inductive cell : Type :=
| Value (v : pyval)
| Str (s : string)
| SuccessGlyph (ok : bool)
| Seconds (rounded : pyval).

Record PrettyTable := mkPrettyTable {
  field_names : list string;
  rows : list (list cell)
}.

Definition add_row (row : list cell) (t : PrettyTable) : PrettyTable :=
  mkPrettyTable (field_names t) (rows t ++ [row]).

Record Store := mkStore {
  heap : gmap loc BotMetrics.t;          (* the live BotMetrics objects      *)
  clock : nat -> float;                  (* successive readings of the clock *)
  ticks : nat;                           (* how many were taken so far       *)
  stdout : list PrettyTable;             (* what was printed, oldest first   *)
  persisted : list (loc * BotMetrics.t)  (* calls of a strategy's persist:
                                            the object and its fields then  *)
}.

Definition set_heap (h : gmap loc BotMetrics.t) (σ : Store) : Store :=
  mkStore h (clock σ) (ticks σ) (stdout σ) (persisted σ).
Definition set_ticks (n : nat) (σ : Store) : Store :=
  mkStore (heap σ) (clock σ) n (stdout σ) (persisted σ).
Definition set_stdout (out : list PrettyTable) (σ : Store) : Store :=
  mkStore (heap σ) (clock σ) (ticks σ) out (persisted σ).
Definition set_persisted (log : list (loc * BotMetrics.t)) (σ : Store) : Store :=
  mkStore (heap σ) (clock σ) (ticks σ) (stdout σ) log.

(** State and exceptions; what was done before a raise stays done. *)
Definition M (A : Type) : Type := Store -> outcome A * Store.

#[global] Instance M_ret : MRet M := fun A a σ => (Normal a, σ).
#[global] Instance M_bind : MBind M := fun A B k c σ =>
  match c σ with
  | (Normal a, σ') => k a σ'
  | (Raised e, σ') => (Raised e, σ')
  end.

Definition raise {A} (e : exn) : M A := fun σ => (Raised e, σ).

Definition lift {A} (c : outcome A) : M A := fun σ => (c, σ).

Definition modify (f : Store -> Store) : M unit := fun σ => (Normal tt, f σ).

(** A new object, at an address no live object has. *)
Definition alloc (m : BotMetrics.t) : M loc := fun σ =>
  let l := fresh (dom (heap σ)) in
  (Normal l, set_heap (<[l := m]> (heap σ)) σ).

(** The fields of the object at [l].  Every reference the code holds is to
    a live object; the raise marks the case that cannot arise. *)
Definition load (l : loc) : M BotMetrics.t := fun σ =>
  match heap σ !! l with
  | Some m => (Normal m, σ)
  | None => (Raised (RuntimeError "dangling reference"), σ)
  end.

(** Attribute assignment on the object at [l]. *)
Definition setattr (l : loc) (f : BotMetrics.t -> BotMetrics.t) : M unit :=
  m ← load l;
  modify (fun σ => set_heap (<[l := f m]> (heap σ)) σ).

(** [time.time()] *)
Definition time_time : M float := fun σ =>
  (Normal (clock σ (ticks σ)), set_ticks (S (ticks σ)) σ).

(** [print(t)] *)
Definition print (t : PrettyTable) : M unit :=
  modify (fun σ => set_stdout (stdout σ ++ [t]) σ).

(* ===================================================================== *)
(** ** pydantic_classes.py: the mutators of BotMetrics                    *)
(* ===================================================================== *)

Definition trackStart (self : loc) : M unit :=
  now ← time_time;
  setattr self (BotMetrics.set_startTime (Some now)).

Definition trackEnd (self : loc) : M unit :=
  now ← time_time;
  setattr self (BotMetrics.set_endTime (Some now)).

Definition captureEvent (self : loc) (event : Event.t) : M unit :=
  setattr self (BotMetrics.set_event (Some event)).

(* ===================================================================== *)
(** ** metrics.py                                                         *)
(* ===================================================================== *)

Module PersistMetrics.
(** An instance of the class or of a subclass, as its [persist] method. *)
Record t := mk { persist : loc -> M unit }.

(** The base class: the body of [persist] is [pass]. *)
Definition new : t := mk (fun metrics => mret tt).
End PersistMetrics.

Module ConsoleMetrics.
Section Runtime.
(** Rounding of a float to two decimals, as the Python runtime does it. *)
Variable round2 : float -> float.

(** [round(v, 2)]: a float is rounded, an int is returned as it is, a
    bool as the int it is; nothing else has [__round__]. *)
Definition py_round (v : pyval) : outcome pyval :=
  match v with
  | PyFloat f => Normal (PyFloat (round2 f))
  | PyInt z => Normal (PyInt z)
  | PyBool b => Normal (PyInt (Z.b2z b))
  | _ => Raised TypeError
  end.

Definition persist (metrics : loc) : M unit :=
  m ← load metrics;
  let t := mkPrettyTable
    ["When"; "Success"; "Conversation ID"; "User ID"; "Message type";
     "Input size"; "Output size"; "Inference Time"]%string [] in
  row ← lift (
    when ← py_round (from_option PyFloat PyNone (BotMetrics.startTime m));
    let glyph := SuccessGlyph (BotMetrics.success m) in
    conversationId ← BotMetrics.conversationId m;
    userId ← BotMetrics.userId m;
    inputMessageType ← BotMetrics.inputMessageType m;
    userInputSize ← BotMetrics.userInputSize m;
    botOutputSize ← BotMetrics.botOutputSize m;
    seconds ← py_round (BotMetrics.responseTime m);
    mret [Value when; glyph; Str conversationId; Str userId;
          Value inputMessageType; Value (PyInt userInputSize);
          Value (PyInt botOutputSize); Seconds seconds]);
  print (add_row row t).

(** [ConsoleMetrics()] *)
Definition new : PersistMetrics.t := PersistMetrics.mk persist.
End Runtime.
End ConsoleMetrics.

(** The attributes of a [TrackChatbotResponseMetrics] object. *)
Record TrackerObject := mkTracker {
  persist : PersistMetrics.t;
  chatbotResponsMetrics : option loc     (* unset until [__enter__] *)
}.

(** A tracker is a mutable object as a record is: whoever holds a
    reference to it reads what was last assigned to its attributes.  The
    trackers live beside the store of the records; a strategy's [persist]
    is given the store alone. *)
Record World := mkWorld {
  store : Store;
  trackers : gmap loc TrackerObject
}.

(** State and exceptions again, for the code that uses a tracker. *)
Definition W (A : Type) : Type := World -> outcome A * World.

#[global] Instance W_ret : MRet W := fun A a w => (Normal a, w).
#[global] Instance W_bind : MBind W := fun A B k c w =>
  match c w with
  | (Normal a, w') => k a w'
  | (Raised e, w') => (Raised e, w')
  end.

Definition raiseS {A} (e : exn) : W A := fun w => (Raised e, w).

Definition modifyS (f : World -> World) : W unit := fun w => (Normal tt, f w).

(** Code that touches the store alone, run where the trackers are. *)
Definition liftM {A} (c : M A) : W A := fun w =>
  let (r, σ) := c (store w) in (r, mkWorld σ (trackers w)).

(** [try: c  except: h] *)
Definition try_except {A} (c : W A) (h : exn -> W A) : W A := fun w =>
  match c w with
  | (Normal a, w') => (Normal a, w')
  | (Raised e, w') => h e w'
  end.

(** The attributes of the tracker at [self].  As for records, the raise
    marks the case that cannot arise. *)
Definition load_tracker (self : loc) : W TrackerObject := fun w =>
  match trackers w !! self with
  | Some tr => (Normal tr, w)
  | None => (Raised (RuntimeError "dangling reference"), w)
  end.

(** Attribute assignment on the tracker at [self]. *)
Definition store_tracker (self : loc) (f : TrackerObject -> TrackerObject) : W unit :=
  tr ← load_tracker self;
  modifyS (fun w => mkWorld (store w) (<[self := f tr]> (trackers w))).

Module TrackChatbotResponseMetrics.
(** [self.persist] *)
Definition getattr_persist (self : loc) : W PersistMetrics.t :=
  tr ← load_tracker self;
  mret (persist tr).

(** [self.chatbotResponsMetrics] *)
Definition getattr_chatbotResponsMetrics (self : loc) : W loc :=
  tr ← load_tracker self;
  match chatbotResponsMetrics tr with
  | Some l => mret l
  | None => raiseS AttributeError
  end.

(** [strategy.persist(metrics)]: the call is entered in the log with the
    fields the object has at that moment, then the method runs. *)
Definition call_persist (strategy : PersistMetrics.t) (metrics : loc) : W unit :=
  liftM (m ← load metrics;
         modify (fun σ => set_persisted (persisted σ ++ [(metrics, m)]) σ);;
         PersistMetrics.persist strategy metrics).

(** [TrackChatbotResponseMetrics(persist)]: a new tracker object, on which
    [__init__(self, persist=ConsoleMetrics())] assigns [self.persist]. *)
Definition __init__ (round2 : float -> float) (persist : option PersistMetrics.t)
    : W loc := fun w =>
  let self := fresh (dom (trackers w)) in
  (Normal self,
   mkWorld (store w)
     (<[self := mkTracker (default (ConsoleMetrics.new round2) persist) None]>
        (trackers w))).

Definition __enter__ (self : loc) : W loc :=
  metrics ← liftM (alloc BotMetrics.new);
  store_tracker self (fun tr => mkTracker (persist tr) (Some metrics));;
  getattr_chatbotResponsMetrics self.

Definition __exit__ (self : loc) (type : option exn) : W bool :=
  match type with
  | Some _ =>
      (* something went wrong *)
      metrics ← getattr_chatbotResponsMetrics self;
      liftM (setattr metrics (BotMetrics.set_success false))
  | None => mret tt
  end;;
  strategy ← getattr_persist self;
  metrics ← getattr_chatbotResponsMetrics self;
  call_persist strategy metrics;;
  mret true.
End TrackChatbotResponseMetrics.

(** [with mgr as value: body(value)], as the language defines it: the
    body's exception goes to [__exit__], and is raised again unless
    [__exit__] returns a true value; without an exception [__exit__] is
    called with [None].  [mgr] is a reference to the tracker, and the body
    runs where the trackers are: it may use [mgr] itself. *)
Definition with_statement (mgr : loc) (body : loc -> W unit) : W unit :=
  value ← TrackChatbotResponseMetrics.__enter__ mgr;
  exc ← try_except (body value;; mret true)
          (fun e =>
             suppress ← TrackChatbotResponseMetrics.__exit__ mgr (Some e);
             if suppress : bool then mret false else raiseS e);
  if exc : bool then TrackChatbotResponseMetrics.__exit__ mgr None;; mret tt
  else mret tt.

(** [with TrackChatbotResponseMetrics(persist) as value: body(value)] *)
Definition tracked (round2 : float -> float) (persist : option PersistMetrics.t)
    (body : loc -> W unit) : W unit :=
  mgr ← TrackChatbotResponseMetrics.__init__ round2 persist;
  with_statement mgr body.

(* ===================================================================== *)
(** ** Sample data                                                        *)
(* ===================================================================== *)

Definition hi_there : BotMessage.t :=
  BotMessage.mk (PyMessageType BotMessageTypes.text)
                (PyPayload (TextPayload (BotTextMessage.mk "hi there" true))).

Definition hello_event : Event.t :=
  Event.mk "u-0123456789" "c-012345678901" "e-0123456789012345" 0
           (PyDirection Directions.incoming)
           (<["text" := PyStr "hello"]> (<["type" := PyStr "text"]> ∅))
           [hi_there].

(** A store with no object, nothing printed, and a clock that reads
    [0.0, 1.0, 2.0, ...]. *)
Definition boot : Store :=
  mkStore ∅ (fun n => Nat.iter n (PrimFloat.add PrimFloat.one) PrimFloat.zero) 0 [] [].

(** The same, with no tracker yet. *)
Definition boot_world : World := mkWorld boot ∅.

(* ===================================================================== *)
(** ** Vocabulary of the statements                                       *)
(* ===================================================================== *)

(** [self] holds [m'] after the step and no other object was touched. *)
Definition updates_only (self : loc) (m' : BotMetrics.t) (σ σ' : Store) : Prop :=
  heap σ' !! self = Some m' ∧ ∀ l, l ≠ self -> heap σ' !! l = heap σ !! l.

(** The record as [__exit__] hands it to the strategy. *)
Definition finalized (type : option exn) (m : BotMetrics.t) : BotMetrics.t :=
  match type with
  | Some _ => BotMetrics.set_success false m
  | None => m
  end.

(** The store at the moment the strategy's [persist] is entered. *)
Definition at_persist (l : loc) (m' : BotMetrics.t) (σ : Store) : Store :=
  set_persisted (persisted σ ++ [(l, m')]) (set_heap (<[l := m']> (heap σ)) σ).

Definition raised {A} (r : outcome A) : option exn :=
  match r with
  | Normal _ => None
  | Raised e => Some e
  end.

(** The address [__enter__] gives the record of a scope opened in [σ], and
    the store once it is opened. *)
Definition scope_record (σ : Store) : loc := fresh (dom (heap σ)).

Definition entered (σ : Store) : Store :=
  set_heap (<[scope_record σ := BotMetrics.new]> (heap σ)) σ.

(** The address [TrackChatbotResponseMetrics(...)] gives a tracker
    constructed in [w], and the world once the scope of the tracker at
    [mgr], which held [tr], is opened in [w]. *)
Definition new_tracker (w : World) : loc := fresh (dom (trackers w)).

Definition entered_world (mgr : loc) (tr : TrackerObject) (w : World) : World :=
  mkWorld (entered (store w))
    (<[mgr := mkTracker (persist tr) (Some (scope_record (store w)))]>
       (trackers w)).

(** The columns of the console table, and the row [ConsoleMetrics.persist]
    computes for a record. *)
Definition console_field_names : list string :=
  ["When"; "Success"; "Conversation ID"; "User ID"; "Message type";
   "Input size"; "Output size"; "Inference Time"]%string.

Definition console_row (round2 : float -> float) (m : BotMetrics.t)
    : outcome (list cell) :=
  when ← ConsoleMetrics.py_round round2
           (from_option PyFloat PyNone (BotMetrics.startTime m));
  conversationId ← BotMetrics.conversationId m;
  userId ← BotMetrics.userId m;
  inputMessageType ← BotMetrics.inputMessageType m;
  userInputSize ← BotMetrics.userInputSize m;
  botOutputSize ← BotMetrics.botOutputSize m;
  seconds ← ConsoleMetrics.py_round round2 (BotMetrics.responseTime m);
  mret [Value when; SuccessGlyph (BotMetrics.success m);
        Str conversationId; Str userId;
        Value inputMessageType; Value (PyInt userInputSize);
        Value (PyInt botOutputSize); Seconds seconds].

(** The text a payload instance carries, if its class declares one. *)
Definition payload_text (p : BotPayload) : option string :=
  match p with
  | TextPayload m => Some (BotTextMessage.text m)
  | ButtonPayload m => Some (BotButtonMessage.text m)
  | DropdownPayload m => Some (BotDropdownMessage.text m)
  | ImagePayload _ | HTMLPayload _ => None
  end.

(** A scope body that follows the tracker's protocol to its end, and one
    that fails while the chatbot works. *)
Definition protocol_body (event : Event.t) (r : loc) : M unit :=
  captureEvent r event;; trackStart r;; trackEnd r.

Definition failing_body (event : Event.t) (x : exn) (r : loc) : M unit :=
  captureEvent r event;; trackStart r;; raise x.

(** Splits a constructor, a chain of [Field]s, at its first field. *)
Ltac split_fields :=
  repeat match goal with
  | |- context [Field ?d ?v ?a] =>
      let H := fresh "HField" in
      destruct (Field d v a) eqn:H; simpl; try discriminate
  end.

(** Closes [updates_only] goals about a store whose heap is an insert. *)
Ltac solve_updates_only :=
  unfold updates_only; simpl; split;
  [ apply lookup_insert_eq
  | let l := fresh "l" in let Hl := fresh "Hl" in
    intros l Hl; apply lookup_insert_ne; congruence ].

(* ===================================================================== *)
(** ** Lemmas on the monads                                               *)
(* ===================================================================== *)

Lemma obind_Normal {A B} (a : A) (k : A -> outcome B) :
  (Normal a ≫= k) = k a.
Proof. reflexivity. Qed.

(** The left fold with a running total is the total of the element-wise
    results, shifted by the initial value. *)
Lemma functools_reduce_sum {B} (size : B -> outcome Z) (xs : list B) (init : Z) :
  functools_reduce (fun s r => n ← size r; mret (s + n)) xs init =
  (sizes ← traverse size xs; mret (init + sumZ sizes)).
Proof.
  revert init. induction xs as [|x xs IH]; intros init; simpl.
  - unfold sumZ; simpl. f_equal. lia.
  - destruct (size x) as [n|e]; simpl; [|reflexivity].
    rewrite IH. destruct (traverse size xs) as [sizes|e]; simpl; [|reflexivity].
    unfold mret, outcome_ret, sumZ; simpl. f_equal. lia.
Qed.

Lemma traverse_Forall2 {A B} (f : A -> outcome B) (xs : list A) (ys : list B) :
  Forall2 (fun x y => f x = Normal y) xs ys -> traverse f xs = Normal ys.
Proof.
  induction 1 as [|x y xs ys Hxy _ IH]; simpl; [reflexivity|].
  rewrite Hxy, IH. reflexivity.
Qed.

Lemma traverse_validate_Choice (cs : list Choice.t) :
  traverse validate_Choice (PyChoice <$> cs) = Normal cs.
Proof.
  induction cs as [|c cs IH]; [reflexivity|].
  rewrite fmap_cons. cbn [traverse validate_Choice obind].
  rewrite IH. reflexivity.
Qed.


Lemma Field_Raised {A} (d : option A) (validate : pyval -> outcome A)
    (arg : option pyval) (e : exn) :
  (∀ v e', validate v = Raised e' -> e' = ValidationError) ->
  Field d validate arg = Raised e -> e = ValidationError.
Proof.
  intros Hv. unfold Field. destruct arg as [v|].
  - apply Hv.
  - destruct d; congruence.
Qed.

(* ===================================================================== *)
(** ** The message schema                                                 *)
(* ===================================================================== *)

(** C3, as the claim states it, fails: a Button message built with
    [choices=[]] and nothing else is accepted, with no choice at all. *)
Lemma button_empty_choices_accepted :
  new_BotButtonMessage None (Some (PyList [])) None
  = Normal (BotButtonMessage.mk "" [] true).
Proof. reflexivity. Qed.

(** C3, amended: [choices] of a Button message is required to be given,
    not to be non-empty.  Leaving it out raises [ValidationError] whatever
    the other arguments are; giving a list of [Choice] instances of any
    length, the empty list included, builds the message with exactly those
    choices. *)
Theorem button_choices_required_not_nonempty :
  (∀ text active,
     new_BotButtonMessage text None active = Raised ValidationError) ∧
  (∀ s cs b,
     new_BotButtonMessage (Some (PyStr s)) (Some (PyList (PyChoice <$> cs)))
                          (Some (PyBool b))
     = Normal (BotButtonMessage.mk s cs b)) ∧
  (∀ cs,
     new_BotButtonMessage None (Some (PyList (PyChoice <$> cs))) None
     = Normal (BotButtonMessage.mk "" cs true)).
Proof.
  split; [|split].
  - intros text active. unfold new_BotButtonMessage.
    destruct (Field (Some ""%string) validate_str text) as [t|e] eqn:Ht.
    + reflexivity.
    + apply Field_Raised in Ht as ->; [reflexivity|].
      intros [] e'; simpl; congruence.
  - intros s cs b. unfold new_BotButtonMessage; simpl.
    rewrite traverse_validate_Choice. reflexivity.
  - intros cs. unfold new_BotButtonMessage; simpl.
    rewrite traverse_validate_Choice. reflexivity.
Qed.




(** C5: the code does not do what the claim says.  A message built with a
    text payload and no [type] argument holds the declared default type,
    the string ["text"]; [messageSize] compares it with the member [text],
    finds them different and returns [0], not the number of characters of
    the text. *)
Theorem messageSize_of_default_type_text_message :
  (∀ t,
     BotMessage.new None (Some (PyPayload (TextPayload t)))
     = Normal (BotMessage.mk (PyStr "text") (PyPayload (TextPayload t))) ∧
     BotMessage.messageSize
       (BotMessage.mk (PyStr "text") (PyPayload (TextPayload t)))
     = Normal 0) ∧
  BotMessage.messageSize
    (BotMessage.mk (PyStr "text")
       (PyPayload (TextPayload (BotTextMessage.mk "hi there" true))))
  ≠ Normal (Z.of_nat (String.length "hi there")).
Proof.
  split.
  - intros t. split; reflexivity.
  - discriminate.
Qed.

(* ===================================================================== *)
(** ** The derived fields of BotMetrics                                   *)
(* ===================================================================== *)

(** C6: with both times set, [responseTime] is [endTime - startTime]; with
    either of them unset it is [0]. *)
Theorem responseTime_spec (m : BotMetrics.t) :
  (∀ s e,
     BotMetrics.startTime m = Some s -> BotMetrics.endTime m = Some e ->
     BotMetrics.responseTime m = PyFloat (PrimFloat.sub e s)) ∧
  (BotMetrics.startTime m = None ∨ BotMetrics.endTime m = None ->
   BotMetrics.responseTime m = PyInt 0).
Proof.
  unfold BotMetrics.responseTime. split.
  - intros s e -> ->. reflexivity.
  - intros [-> | ->]; [reflexivity|].
    destruct (BotMetrics.startTime m); reflexivity.
Qed.

Lemma responseTime_spec_witness :
  BotMetrics.responseTime
    (BotMetrics.mk None (Some PrimFloat.one) (Some PrimFloat.two) true)
  = PyFloat PrimFloat.one
  ∧ BotMetrics.responseTime (BotMetrics.mk None (Some PrimFloat.one) None true)
    = PyInt 0.
Proof.
  split.
  - rewrite (proj1 (responseTime_spec
                      (BotMetrics.mk None (Some PrimFloat.one) (Some PrimFloat.two) true))
               PrimFloat.one PrimFloat.two eq_refl eq_refl).
    reflexivity.
  - apply (proj2 (responseTime_spec
                    (BotMetrics.mk None (Some PrimFloat.one) None true))).
    right. reflexivity.
Defined.

(** C7: once an event is captured, [botOutputSize] is the sum of
    [messageSize] over the entries of [event.botReply], taken in order,
    whatever the length of the list; over the empty list it is [0]. *)
Theorem botOutputSize_is_sum (m : BotMetrics.t) (e : Event.t) :
  BotMetrics.event m = Some e ->
  BotMetrics.botOutputSize m
  = (sizes ← traverse BotMessage.messageSize (Event.botReply e);
     mret (sumZ sizes)) ∧
  (∀ sizes,
     Forall2 (fun r n => BotMessage.messageSize r = Normal n)
             (Event.botReply e) sizes ->
     BotMetrics.botOutputSize m = Normal (sumZ sizes)) ∧
  (Event.botReply e = [] -> BotMetrics.botOutputSize m = Normal 0).
Proof.
  intros He. unfold BotMetrics.botOutputSize, BotMetrics.event_attr.
  rewrite He. rewrite obind_Normal, functools_reduce_sum.
  split; [|split].
  - destruct (traverse BotMessage.messageSize (Event.botReply e)); reflexivity.
  - intros sizes Hall. rewrite (traverse_Forall2 _ _ _ Hall). reflexivity.
  - intros ->. reflexivity.
Qed.

Lemma botOutputSize_is_sum_witness :
  BotMetrics.botOutputSize (BotMetrics.mk (Some hello_event) None None true)
  = Normal 8.
Proof.
  rewrite (proj1 (botOutputSize_is_sum
                    (BotMetrics.mk (Some hello_event) None None true)
                    hello_event eq_refl)).
  reflexivity.
Defined.

(** C8: on a record whose event was never captured, reading
    [userInputSize], [botOutputSize] or [inputMessageType] raises. *)
Theorem derived_fields_need_event (m : BotMetrics.t) :
  BotMetrics.event m = None ->
  BotMetrics.userInputSize m = Raised AttributeError ∧
  BotMetrics.botOutputSize m = Raised AttributeError ∧
  BotMetrics.inputMessageType m = Raised AttributeError.
Proof.
  intros He.
  unfold BotMetrics.userInputSize, BotMetrics.botOutputSize,
    BotMetrics.inputMessageType, BotMetrics.event_attr.
  rewrite He. repeat split.
Qed.

Lemma derived_fields_need_event_witness :
  BotMetrics.event BotMetrics.new = None ∧
  BotMetrics.userInputSize BotMetrics.new = Raised AttributeError ∧
  BotMetrics.botOutputSize BotMetrics.new = Raised AttributeError ∧
  BotMetrics.inputMessageType BotMetrics.new = Raised AttributeError.
Proof.
  split; [reflexivity|].
  apply (derived_fields_need_event BotMetrics.new). reflexivity.
Defined.

(* ===================================================================== *)
(** ** Lemmas on the object store                                         *)
(* ===================================================================== *)

Lemma bind_M {A B} (c : M A) (k : A -> M B) (σ : Store) :
  (c ≫= k) σ =
  match c σ with
  | (Normal a, σ') => k a σ'
  | (Raised e, σ') => (Raised e, σ')
  end.
Proof. reflexivity. Qed.

Lemma bind_M_ret {A B} (a : A) (k : A -> M B) (σ : Store) :
  (mret a ≫= k) σ = k a σ.
Proof. reflexivity. Qed.

Lemma bind_M_Normal {A B} (c : M A) (k : A -> M B) (σ σ' : Store) (a : A) :
  c σ = (Normal a, σ') -> (c ≫= k) σ = k a σ'.
Proof. intros H. rewrite bind_M, H. reflexivity. Qed.

Lemma bind_M_modify {B} (f : Store -> Store) (k : unit -> M B) (σ : Store) :
  (modify f ≫= k) σ = k tt (f σ).
Proof. reflexivity. Qed.

Lemma load_live (l : loc) (m : BotMetrics.t) (σ : Store) :
  heap σ !! l = Some m -> load l σ = (Normal m, σ).
Proof. intros H. unfold load. rewrite H. reflexivity. Qed.

Lemma setattr_live (l : loc) (f : BotMetrics.t -> BotMetrics.t)
    (m : BotMetrics.t) (σ : Store) :
  heap σ !! l = Some m ->
  setattr l f σ = (Normal tt, set_heap (<[l := f m]> (heap σ)) σ).
Proof.
  intros H. unfold setattr. rewrite bind_M, (load_live l m σ H). reflexivity.
Qed.

Lemma set_heap_same (l : loc) (m : BotMetrics.t) (σ : Store) :
  heap σ !! l = Some m -> set_heap (<[l := m]> (heap σ)) σ = σ.
Proof.
  intros H. destruct σ as [h c n out log]; unfold set_heap; simpl in *.
  rewrite (insert_id h l m H). reflexivity.
Qed.

Lemma updates_only_insert (self : loc) (m' : BotMetrics.t) (σ : Store) :
  updates_only self m' σ (set_heap (<[self := m']> (heap σ)) σ).
Proof.
  split; simpl.
  - apply lookup_insert_eq.
  - intros l Hl. apply lookup_insert_ne. congruence.
Qed.

Lemma bind_W {A B} (c : W A) (k : A -> W B) (w : World) :
  (c ≫= k) w =
  match c w with
  | (Normal a, w') => k a w'
  | (Raised e, w') => (Raised e, w')
  end.
Proof. reflexivity. Qed.

Lemma bind_W_ret {A B} (a : A) (k : A -> W B) (w : World) :
  (mret a ≫= k) w = k a w.
Proof. reflexivity. Qed.

Lemma bind_W_Normal {A B} (c : W A) (k : A -> W B) (w w' : World) (a : A) :
  c w = (Normal a, w') -> (c ≫= k) w = k a w'.
Proof. intros H. rewrite bind_W, H. reflexivity. Qed.

Lemma bind_W_Raised {A B} (c : W A) (k : A -> W B) (w w' : World) (e : exn) :
  c w = (Raised e, w') -> (c ≫= k) w = (Raised e, w').
Proof. intros H. rewrite bind_W, H. reflexivity. Qed.

Lemma liftM_run {A} (c : M A) (w : World) (r : outcome A) (σ' : Store) :
  c (store w) = (r, σ') -> liftM c w = (r, mkWorld σ' (trackers w)).
Proof. intros H. unfold liftM. rewrite H. reflexivity. Qed.

Lemma load_tracker_live (self : loc) (tr : TrackerObject) (w : World) :
  trackers w !! self = Some tr -> load_tracker self w = (Normal tr, w).
Proof. intros H. unfold load_tracker. rewrite H. reflexivity. Qed.

Lemma store_tracker_live (self : loc) (f : TrackerObject -> TrackerObject)
    (tr : TrackerObject) (w : World) :
  trackers w !! self = Some tr ->
  store_tracker self f w
  = (Normal tt, mkWorld (store w) (<[self := f tr]> (trackers w))).
Proof.
  intros H. unfold store_tracker.
  rewrite (bind_W_Normal _ _ _ _ _ (load_tracker_live self tr w H)). reflexivity.
Qed.

Lemma getattr_persist_live (self : loc) (tr : TrackerObject) (w : World) :
  trackers w !! self = Some tr ->
  TrackChatbotResponseMetrics.getattr_persist self w = (Normal (persist tr), w).
Proof.
  intros H. unfold TrackChatbotResponseMetrics.getattr_persist.
  rewrite (bind_W_Normal _ _ _ _ _ (load_tracker_live self tr w H)). reflexivity.
Qed.

Lemma getattr_chatbotResponsMetrics_live (self : loc) (tr : TrackerObject) (w : World) :
  trackers w !! self = Some tr ->
  TrackChatbotResponseMetrics.getattr_chatbotResponsMetrics self w
  = match chatbotResponsMetrics tr with
    | Some l => (Normal l, w)
    | None => (Raised AttributeError, w)
    end.
Proof.
  intros H. unfold TrackChatbotResponseMetrics.getattr_chatbotResponsMetrics.
  rewrite (bind_W_Normal _ _ _ _ _ (load_tracker_live self tr w H)).
  destruct (chatbotResponsMetrics tr); reflexivity.
Qed.

(** Entering the scope of a live tracker: a new record, and the tracker's
    attribute assigned to it. *)
Lemma enter_live (self : loc) (tr : TrackerObject) (w : World) :
  trackers w !! self = Some tr ->
  TrackChatbotResponseMetrics.__enter__ self w
  = (Normal (scope_record (store w)), entered_world self tr w).
Proof.
  intros H. unfold TrackChatbotResponseMetrics.__enter__.
  rewrite (bind_W_Normal (liftM (alloc BotMetrics.new)) _ w
             (mkWorld (entered (store w)) (trackers w)) (scope_record (store w))
             eq_refl).
  rewrite (bind_W_Normal _ _ _ _ _
             (store_tracker_live self _ tr
                (mkWorld (entered (store w)) (trackers w)) H)).
  rewrite (getattr_chatbotResponsMetrics_live self
             (mkTracker (persist tr) (Some (scope_record (store w)))));
    [reflexivity|apply lookup_insert_eq].
Qed.

(* ===================================================================== *)
(** ** The lifecycle of a record                                          *)
(* ===================================================================== *)

(** C9: entering the scope never fails; it returns a record that is new
    (at an address no live record has, so no record of an earlier scope is
    shared or changed) and empty: no event, no start time, no end time,
    [success] true.  The tracker's attribute is assigned that record. *)
Theorem enter_returns_fresh_empty_record
    (self : loc) (tr : TrackerObject) (w : World) :
  trackers w !! self = Some tr ->
  ∃ l w',
    TrackChatbotResponseMetrics.__enter__ self w = (Normal l, w') ∧
    heap (store w) !! l = None ∧
    heap (store w') !! l = Some (BotMetrics.mk None None None true) ∧
    (∀ l', l' ≠ l -> heap (store w') !! l' = heap (store w) !! l') ∧
    persisted (store w') = persisted (store w) ∧
    stdout (store w') = stdout (store w) ∧
    ticks (store w') = ticks (store w) ∧
    trackers w' = <[self := mkTracker (persist tr) (Some l)]> (trackers w).
Proof.
  intros Hself.
  exists (scope_record (store w)), (entered_world self tr w).
  split; [apply (enter_live self tr w Hself)|]. split.
  - unfold scope_record. apply not_elem_of_dom, is_fresh.
  - destruct (updates_only_insert (scope_record (store w)) BotMetrics.new (store w))
      as [Hnew Hframe].
    split; [exact Hnew|]. split; [exact Hframe|]. repeat split.
Qed.

Lemma enter_returns_fresh_empty_record_witness :
  let w := mkWorld boot {[ 0%nat := mkTracker PersistMetrics.new None ]} in
  trackers w !! 0%nat = Some (mkTracker PersistMetrics.new None) ∧
  ∃ l w',
    TrackChatbotResponseMetrics.__enter__ 0%nat w = (Normal l, w') ∧
    heap (store w) !! l = None ∧
    heap (store w') !! l = Some (BotMetrics.mk None None None true) ∧
    (∀ l', l' ≠ l -> heap (store w') !! l' = heap (store w) !! l') ∧
    persisted (store w') = persisted (store w) ∧
    stdout (store w') = stdout (store w) ∧
    ticks (store w') = ticks (store w) ∧
    trackers w' = <[0%nat := mkTracker PersistMetrics.new (Some l)]> (trackers w).
Proof.
  intros w. split; [reflexivity|].
  apply (enter_returns_fresh_empty_record 0%nat
           (mkTracker PersistMetrics.new None) w eq_refl).
Defined.

(** C10: each mutator assigns one stored field of its record and nothing
    else: [trackStart] the start time, [trackEnd] the end time,
    [captureEvent] the event.  The three other fields, [success] among
    them, and every other record keep their values. *)
Theorem mutators_touch_one_field (self : loc) (m : BotMetrics.t) (σ : Store) :
  heap σ !! self = Some m ->
  (∃ m' σ',
     trackStart self σ = (Normal tt, σ') ∧ updates_only self m' σ σ' ∧
     BotMetrics.startTime m' = Some (clock σ (ticks σ)) ∧
     BotMetrics.event m' = BotMetrics.event m ∧
     BotMetrics.endTime m' = BotMetrics.endTime m ∧
     BotMetrics.success m' = BotMetrics.success m) ∧
  (∃ m' σ',
     trackEnd self σ = (Normal tt, σ') ∧ updates_only self m' σ σ' ∧
     BotMetrics.endTime m' = Some (clock σ (ticks σ)) ∧
     BotMetrics.event m' = BotMetrics.event m ∧
     BotMetrics.startTime m' = BotMetrics.startTime m ∧
     BotMetrics.success m' = BotMetrics.success m) ∧
  (∀ event, ∃ m' σ',
     captureEvent self event σ = (Normal tt, σ') ∧ updates_only self m' σ σ' ∧
     BotMetrics.event m' = Some event ∧
     BotMetrics.startTime m' = BotMetrics.startTime m ∧
     BotMetrics.endTime m' = BotMetrics.endTime m ∧
     BotMetrics.success m' = BotMetrics.success m).
Proof.
  intros Hm.
  assert (Hticked : heap (set_ticks (S (ticks σ)) σ) !! self = Some m) by exact Hm.
  split; [|split].
  - eexists _, _. split.
    + unfold trackStart. rewrite bind_M. unfold time_time.
      apply (setattr_live self _ m _ Hticked).
    + split; [solve_updates_only | repeat split].
  - eexists _, _. split.
    + unfold trackEnd. rewrite bind_M. unfold time_time.
      apply (setattr_live self _ m _ Hticked).
    + split; [solve_updates_only | repeat split].
  - intros event. eexists _, _. split.
    + unfold captureEvent. apply (setattr_live self _ m σ Hm).
    + split; [solve_updates_only | repeat split].
Qed.

Lemma mutators_touch_one_field_witness :
  let σ := mkStore {[ 0%nat := BotMetrics.new ]} (clock boot) 0 [] [] in
  heap σ !! 0%nat = Some BotMetrics.new ∧
  ∃ m' σ',
    trackStart 0%nat σ = (Normal tt, σ') ∧ updates_only 0%nat m' σ σ' ∧
    BotMetrics.startTime m' = Some (clock σ (ticks σ)) ∧
    BotMetrics.event m' = BotMetrics.event BotMetrics.new ∧
    BotMetrics.endTime m' = BotMetrics.endTime BotMetrics.new ∧
    BotMetrics.success m' = BotMetrics.success BotMetrics.new.
Proof.
  intros σ. split; [reflexivity|].
  apply (proj1 (mutators_touch_one_field 0%nat BotMetrics.new σ eq_refl)).
Defined.

(* ===================================================================== *)
(** ** The console strategy                                               *)
(* ===================================================================== *)

(** C2, as the claim states it, fails: on the record a scope starts with,
    the console strategy raises, at [round(metrics.startTime, 2)], and
    prints nothing. *)
Lemma console_persist_raises_on_fresh_record :
  let σ := mkStore {[ 0%nat := BotMetrics.new ]} (clock boot) 0 [] [] in
  (ConsoleMetrics.persist (fun f => f) 0%nat σ).1 = Raised TypeError ∧
  stdout (ConsoleMetrics.persist (fun f => f) 0%nat σ).2 = [].
Proof. split; reflexivity. Qed.

(** C2, amended: the console strategy formats no field defensively.  It
    completes, printing one table of one row, on a record whose start time
    is set and whose event is captured with a ["type"] entry and a sized
    ["text"] entry in its payload and replies whose sizes can be summed;
    the end time may be unset, the inference time is then [0].  On a record
    whose event is unset it raises and prints nothing. *)
Theorem console_persist_needs_populated_record
    (round2 : float -> float) (l : loc) (m : BotMetrics.t) (σ : Store) :
  heap σ !! l = Some m ->
  (∀ s e txt ty n k,
     BotMetrics.startTime m = Some s ->
     BotMetrics.event m = Some e ->
     Event.payload e !! "text"%string = Some txt -> py_len txt = Normal n ->
     Event.payload e !! "type"%string = Some ty ->
     BotMetrics.botOutputSize m = Normal k ->
     ConsoleMetrics.persist round2 l σ
     = (Normal tt,
        set_stdout
          (stdout σ ++
           [mkPrettyTable
              ["When"; "Success"; "Conversation ID"; "User ID"; "Message type";
               "Input size"; "Output size"; "Inference Time"]%string
              [[Value (PyFloat (round2 s));
                SuccessGlyph (BotMetrics.success m);
                Str (Event.conversationId e); Str (Event.userId e);
                Value ty; Value (PyInt n); Value (PyInt k);
                Seconds match BotMetrics.endTime m with
                        | Some t => PyFloat (round2 (PrimFloat.sub t s))
                        | None => PyInt 0
                        end]]]) σ)) ∧
  (BotMetrics.event m = None ->
   ∃ err, ConsoleMetrics.persist round2 l σ = (Raised err, σ)).
Proof.
  intros Hm. split.
  - intros s e txt ty n k Hs He Htxt Hn Hty Hk.
    unfold ConsoleMetrics.persist.
    rewrite bind_M, (load_live l m σ Hm), bind_M.
    unfold lift, BotMetrics.conversationId, BotMetrics.userId,
      BotMetrics.inputMessageType, BotMetrics.userInputSize,
      BotMetrics.responseTime.
    rewrite Hk. unfold BotMetrics.event_attr, py_getitem.
    rewrite Hs, He; simpl. rewrite Hty, Htxt; simpl. rewrite Hn; simpl.
    destruct (BotMetrics.endTime m); reflexivity.
  - intros He. unfold ConsoleMetrics.persist.
    rewrite bind_M, (load_live l m σ Hm), bind_M.
    unfold lift, BotMetrics.conversationId, BotMetrics.event_attr.
    rewrite He.
    destruct (BotMetrics.startTime m); simpl; eexists; reflexivity.
Qed.

Lemma console_persist_needs_populated_record_witness :
  let m := BotMetrics.mk (Some hello_event) (Some PrimFloat.one) None true in
  let σ := mkStore {[ 0%nat := m ]} (clock boot) 0 [] [] in
  heap σ !! 0%nat = Some m ∧
  (ConsoleMetrics.persist (fun f => f) 0%nat σ).1 = Normal tt ∧
  length (stdout (ConsoleMetrics.persist (fun f => f) 0%nat σ).2) = 1%nat.
Proof.
  intros m σ. split; [reflexivity|].
  rewrite (proj1 (console_persist_needs_populated_record
                    (fun f => f) 0%nat m σ eq_refl)
             PrimFloat.one hello_event (PyStr "hello") (PyStr "text") 5 8
             eq_refl eq_refl eq_refl eq_refl eq_refl eq_refl).
  split; reflexivity.
Defined.

(* ===================================================================== *)
(** ** The tracked scope                                                  *)
(* ===================================================================== *)

Lemma call_persist_live (strategy : PersistMetrics.t) (l : loc)
    (m : BotMetrics.t) (w : World) :
  heap (store w) !! l = Some m ->
  TrackChatbotResponseMetrics.call_persist strategy l w
  = let (r, σ') := PersistMetrics.persist strategy l
                     (set_persisted (persisted (store w) ++ [(l, m)]) (store w)) in
    (r, mkWorld σ' (trackers w)).
Proof.
  intros Hm. unfold TrackChatbotResponseMetrics.call_persist, liftM.
  rewrite (bind_M_Normal _ _ _ _ _ (load_live l m (store w) Hm)), bind_M_modify.
  reflexivity.
Qed.

(** [__exit__] flags the record the tracker names if it is given an
    exception, calls the tracker's strategy once on that record, and
    returns [True] if the strategy returns. *)
Lemma exit_calls_persist_once (self : loc) (tr : TrackerObject)
    (type : option exn) (l : loc) (m : BotMetrics.t) (w : World) :
  trackers w !! self = Some tr ->
  chatbotResponsMetrics tr = Some l ->
  heap (store w) !! l = Some m ->
  TrackChatbotResponseMetrics.__exit__ self type w
  = match PersistMetrics.persist (persist tr) l
            (at_persist l (finalized type m) (store w)) with
    | (Normal _, σ') => (Normal true, mkWorld σ' (trackers w))
    | (Raised e, σ') => (Raised e, mkWorld σ' (trackers w))
    end.
Proof.
  intros Hself Hl Hm.
  assert (Hget : ∀ w', trackers w' = trackers w ->
            TrackChatbotResponseMetrics.getattr_chatbotResponsMetrics self w'
            = (Normal l, w')).
  { intros w' Hw'.
    rewrite (getattr_chatbotResponsMetrics_live self tr w'), Hl;
      [reflexivity | rewrite Hw'; exact Hself]. }
  unfold TrackChatbotResponseMetrics.__exit__.
  destruct type as [e|]; simpl finalized.
  - set (σ1 := set_heap (<[l := BotMetrics.set_success false m]> (heap (store w)))
                 (store w)).
    set (w1 := mkWorld σ1 (trackers w)).
    assert (Hflag :
      (TrackChatbotResponseMetrics.getattr_chatbotResponsMetrics self ≫=
         λ metrics, liftM (setattr metrics (BotMetrics.set_success false))) w
      = (Normal tt, w1)).
    { rewrite (bind_W_Normal _ _ _ _ _ (Hget w eq_refl)).
      apply liftM_run. apply (setattr_live l _ m (store w) Hm). }
    rewrite (bind_W_Normal _ _ _ _ _ Hflag).
    rewrite (bind_W_Normal _ _ _ _ _ (getattr_persist_live self tr w1 Hself)).
    rewrite (bind_W_Normal _ _ _ _ _ (Hget w1 eq_refl)).
    rewrite bind_W.
    rewrite (call_persist_live (persist tr) l (BotMetrics.set_success false m) w1);
      [|apply lookup_insert_eq].
    change (set_persisted _ (store w1))
      with (at_persist l (BotMetrics.set_success false m) (store w)).
    destruct (PersistMetrics.persist _ l _) as [[[]|e'] σ']; reflexivity.
  - rewrite bind_W_ret.
    rewrite (bind_W_Normal _ _ _ _ _ (getattr_persist_live self tr w Hself)).
    rewrite (bind_W_Normal _ _ _ _ _ (Hget w eq_refl)).
    rewrite bind_W, (call_persist_live (persist tr) l m w Hm).
    replace (set_persisted (persisted (store w) ++ [(l, m)]) (store w))
      with (at_persist l m (store w)).
    + destruct (PersistMetrics.persist _ l _) as [[[]|e'] σ']; reflexivity.
    + unfold at_persist. rewrite (set_heap_same l m (store w) Hm). reflexivity.
Qed.

(** The whole statement is one call of the strategy the tracker holds when
    the body is done, on the record the tracker names then, as the body
    left it and [__exit__] flagged it. *)
Lemma with_statement_one_persist (mgr : loc) (tr tr' : TrackerObject)
    (body : loc -> W unit) (w w2 : World) (r : outcome unit) (l' : loc)
    (m : BotMetrics.t) :
  trackers w !! mgr = Some tr ->
  body (scope_record (store w)) (entered_world mgr tr w) = (r, w2) ->
  trackers w2 !! mgr = Some tr' ->
  chatbotResponsMetrics tr' = Some l' ->
  heap (store w2) !! l' = Some m ->
  with_statement mgr body w
  = let (r', σ') := PersistMetrics.persist (persist tr') l'
                      (at_persist l' (finalized (raised r) m) (store w2)) in
    (r', mkWorld σ' (trackers w2)).
Proof.
  intros Hmgr Hbody Hmgr' Hl' Hm. unfold with_statement.
  rewrite (bind_W_Normal _ _ _ _ _ (enter_live mgr tr w Hmgr)).
  pose proof (exit_calls_persist_once mgr tr' (raised r) l' m w2 Hmgr' Hl' Hm)
    as Hexit.
  rewrite bind_W. unfold try_except. rewrite bind_W, Hbody.
  destruct r as [[]|e]; simpl in Hexit |- *.
  - rewrite bind_W, Hexit.
    destruct (PersistMetrics.persist _ l' _) as [[[]|e'] σ']; reflexivity.
  - rewrite bind_W, Hexit.
    destruct (PersistMetrics.persist _ l' _) as [[[]|e'] σ']; reflexivity.
Qed.

(** Neither strategy of the source writes to the log of calls. *)
Lemma base_persist_keeps_log (l : loc) (σ : Store) :
  persisted (PersistMetrics.persist PersistMetrics.new l σ).2 = persisted σ.
Proof. reflexivity. Qed.

Lemma console_persist_keeps_log (round2 : float -> float) (l : loc) (σ : Store) :
  persisted (PersistMetrics.persist (ConsoleMetrics.new round2) l σ).2
  = persisted σ.
Proof.
  simpl. unfold ConsoleMetrics.persist, load. rewrite bind_M.
  destruct (heap σ !! l) as [m|]; [|reflexivity].
  rewrite bind_M. unfold lift.
  match goal with |- context [match ?r with Normal _ => _ | Raised _ => _ end] =>
    destruct r
  end; reflexivity.
Qed.




(* ===================================================================== *)
(** ** Worked examples                                                    *)
(* ===================================================================== *)

(** The record of a scope that captured [hello_event] and tracked both
    ends of its processing. *)
Example hello_metrics_sizes :
  let m := BotMetrics.mk (Some hello_event) (Some PrimFloat.one)
                         (Some PrimFloat.two) true in
  BotMetrics.userInputSize m = Normal 5 ∧
  BotMetrics.botOutputSize m = Normal 8 ∧
  BotMetrics.inputMessageType m = Normal (PyStr "text") ∧
  BotMetrics.responseTime m = PyFloat PrimFloat.one.
Proof. repeat split. Qed.

(** [BotMessage()] keeps the two declared defaults as the strings they
    are; the string ["text"] is not the member [text], so the size is 0. *)
Example default_BotMessage_size :
  BotMessage.new None None
  = Normal (BotMessage.mk (PyStr "text") (PyStr "Hello World")) ∧
  BotMessage.messageSize (BotMessage.mk (PyStr "text") (PyStr "Hello World"))
  = Normal 0.
Proof. split; reflexivity. Qed.

(** A message tagged [text] whose payload is an image has no [text] to
    measure. *)
Example text_tag_image_payload_size :
  BotMessage.messageSize
    (BotMessage.mk (PyMessageType BotMessageTypes.text)
                   (PyPayload (ImagePayload (BotImageMessage.mk "http://x/y.png"))))
  = Raised AttributeError.
Proof. reflexivity. Qed.

(** A scope whose body runs to its end under the default strategy. *)
Example tracked_scope_success :
  let body := fun r : loc => liftM (protocol_body hello_event r) in
  (tracked (fun f => f) None body boot_world).1 = Normal tt ∧
  (BotMetrics.success ∘ snd)
    <$> persisted (store (tracked (fun f => f) None body boot_world).2)
  = [true] ∧
  length (stdout (store (tracked (fun f => f) None body boot_world).2)) = 1%nat.
Proof. repeat split. Qed.

(** A body that enters the tracker of its own scope again, and fails
    there.  The inner exit flags and persists the inner record; the outer
    exit reads the tracker's attribute, which the inner entry overwrote,
    and persists the inner record once more.  The outer scope's own record
    is never persisted. *)
Example reentered_tracker_persists_inner_record :
  let inner := fun _ : loc => raiseS (RuntimeError "boom") : W unit in
  let outer := fun mgr (_ : loc) => with_statement mgr inner in
  let run :=
    (mgr ← TrackChatbotResponseMetrics.__init__ (fun f => f)
             (Some PersistMetrics.new);
     with_statement mgr (outer mgr)) boot_world in
  run.1 = Normal tt ∧
  persisted (store run.2)
  = [(1%nat, BotMetrics.mk None None None false);
     (1%nat, BotMetrics.mk None None None false)] ∧
  heap (store run.2) !! 0%nat = Some (BotMetrics.mk None None None true).
Proof. repeat split. Qed.

(* ===================================================================== *)
(** ** Further lemmas on the store and the scope                          *)
(* ===================================================================== *)

Lemma captureEvent_live (l : loc) (ev : Event.t) (m : BotMetrics.t) (σ : Store) :
  heap σ !! l = Some m ->
  captureEvent l ev σ
  = (Normal tt, set_heap (<[l := BotMetrics.set_event (Some ev) m]> (heap σ)) σ).
Proof. intros Hm. apply (setattr_live l _ m σ Hm). Qed.

Lemma trackStart_live (l : loc) (m : BotMetrics.t) (σ : Store) :
  heap σ !! l = Some m ->
  trackStart l σ
  = (Normal tt,
     set_heap (<[l := BotMetrics.set_startTime (Some (clock σ (ticks σ))) m]>
                 (heap σ))
       (set_ticks (S (ticks σ)) σ)).
Proof.
  intros Hm. unfold trackStart. rewrite bind_M. unfold time_time.
  apply (setattr_live l _ m (set_ticks (S (ticks σ)) σ) Hm).
Qed.

Lemma trackEnd_live (l : loc) (m : BotMetrics.t) (σ : Store) :
  heap σ !! l = Some m ->
  trackEnd l σ
  = (Normal tt,
     set_heap (<[l := BotMetrics.set_endTime (Some (clock σ (ticks σ))) m]>
                 (heap σ))
       (set_ticks (S (ticks σ)) σ)).
Proof.
  intros Hm. unfold trackEnd. rewrite bind_M. unfold time_time.
  apply (setattr_live l _ m (set_ticks (S (ticks σ)) σ) Hm).
Qed.

Lemma entered_live (σ : Store) :
  heap (entered σ) !! scope_record σ = Some BotMetrics.new.
Proof. apply lookup_insert_eq. Qed.

Lemma scope_record_fresh (σ : Store) : heap σ !! scope_record σ = None.
Proof. unfold scope_record. apply not_elem_of_dom, is_fresh. Qed.

(** On a live record the console strategy prints the row it computes, or
    raises what computing the row raises and leaves the store alone. *)
Lemma console_persist_live (round2 : float -> float) (l : loc)
    (m : BotMetrics.t) (σ : Store) :
  heap σ !! l = Some m ->
  ConsoleMetrics.persist round2 l σ
  = match console_row round2 m with
    | Normal row =>
        (Normal tt,
         set_stdout (stdout σ ++ [mkPrettyTable console_field_names [row]]) σ)
    | Raised x => (Raised x, σ)
    end.
Proof.
  intros Hm. unfold ConsoleMetrics.persist, console_row.
  rewrite bind_M, (load_live l m σ Hm), bind_M. unfold lift.
  match goal with |- context [match ?r with Normal _ => _ | Raised _ => _ end] =>
    destruct r
  end; reflexivity.
Qed.

Lemma py_round_responseTime (round2 : float -> float) (m : BotMetrics.t) :
  ConsoleMetrics.py_round round2 (BotMetrics.responseTime m)
  = Normal match BotMetrics.startTime m, BotMetrics.endTime m with
           | Some s, Some e => PyFloat (round2 (PrimFloat.sub e s))
           | _, _ => PyInt 0
           end.
Proof.
  unfold BotMetrics.responseTime.
  destruct (BotMetrics.startTime m), (BotMetrics.endTime m); reflexivity.
Qed.

(** What a record must have for its row to be computed, and the row. *)
Lemma console_row_Normal (round2 : float -> float) (m : BotMetrics.t)
    (row : list cell) :
  console_row round2 m = Normal row ->
  ∃ s e txt ty n k,
    BotMetrics.startTime m = Some s ∧ BotMetrics.event m = Some e ∧
    Event.payload e !! "text"%string = Some txt ∧ py_len txt = Normal n ∧
    Event.payload e !! "type"%string = Some ty ∧
    BotMetrics.botOutputSize m = Normal k ∧
    row = [Value (PyFloat (round2 s)); SuccessGlyph (BotMetrics.success m);
           Str (Event.conversationId e); Str (Event.userId e);
           Value ty; Value (PyInt n); Value (PyInt k);
           Seconds match BotMetrics.endTime m with
                   | Some t => PyFloat (round2 (PrimFloat.sub t s))
                   | None => PyInt 0
                   end].
Proof.
  unfold console_row. rewrite py_round_responseTime.
  destruct (BotMetrics.botOutputSize m) as [k|x] eqn:Hk;
  unfold BotMetrics.conversationId, BotMetrics.userId,
    BotMetrics.inputMessageType, BotMetrics.userInputSize,
    BotMetrics.event_attr, py_getitem;
  destruct (BotMetrics.startTime m) as [s|]; simpl; try discriminate;
  destruct (BotMetrics.event m) as [e|]; simpl; try discriminate;
  destruct (Event.payload e !! "type"%string) as [ty|] eqn:Hty;
    simpl; try discriminate;
  destruct (Event.payload e !! "text"%string) as [txt|] eqn:Htxt;
    simpl; try discriminate;
  destruct (py_len txt) as [n|x'] eqn:Hn; simpl; try discriminate.
  intros [= <-]. exists s, e, txt, ty, n, k.
  repeat (split; [first [reflexivity | assumption]|]). reflexivity.
Qed.

Lemma console_row_ready (round2 : float -> float) (m : BotMetrics.t)
    (s : float) (e : Event.t) (txt ty : pyval) (n k : Z) :
  BotMetrics.startTime m = Some s -> BotMetrics.event m = Some e ->
  Event.payload e !! "text"%string = Some txt -> py_len txt = Normal n ->
  Event.payload e !! "type"%string = Some ty ->
  BotMetrics.botOutputSize m = Normal k ->
  console_row round2 m
  = Normal [Value (PyFloat (round2 s)); SuccessGlyph (BotMetrics.success m);
            Str (Event.conversationId e); Str (Event.userId e);
            Value ty; Value (PyInt n); Value (PyInt k);
            Seconds match BotMetrics.endTime m with
                    | Some t => PyFloat (round2 (PrimFloat.sub t s))
                    | None => PyInt 0
                    end].
Proof.
  intros Hs He Htxt Hn Hty Hk.
  unfold console_row. rewrite py_round_responseTime, Hk.
  unfold BotMetrics.conversationId, BotMetrics.userId,
    BotMetrics.inputMessageType, BotMetrics.userInputSize,
    BotMetrics.event_attr, py_getitem.
  rewrite Hs, He; simpl. rewrite Hty, Htxt; simpl. rewrite Hn; simpl.
  reflexivity.
Qed.

Lemma validate_str_Raised (v : pyval) (e : exn) :
  validate_str v = Raised e -> e = ValidationError.
Proof. destruct v; simpl; congruence. Qed.

Lemma str_as_bool_Raised (s : string) (e : exn) :
  str_as_bool s = Raised e -> e = ValidationError.
Proof.
  unfold str_as_bool.
  repeat match goal with |- context [if ?c then _ else _] => destruct c end;
    congruence.
Qed.

Lemma validate_bool_Raised (v : pyval) (e : exn) :
  validate_bool v = Raised e -> e = ValidationError.
Proof.
  destruct v as [|b|z|f|s|xs|t|d|c|p]; simpl; try congruence.
  - destruct z as [|[q|q|]|q]; congruence.
  - repeat match goal with |- context [if ?c then _ else _] => destruct c end;
      congruence.
  - apply str_as_bool_Raised.
Qed.

Lemma traverse_validate_Choice_Raised (xs : list pyval) (e : exn) :
  traverse validate_Choice xs = Raised e -> e = ValidationError.
Proof.
  induction xs as [|x xs IH]; simpl; [discriminate|].
  destruct (validate_Choice x) as [c|e'] eqn:Hx; simpl.
  - destruct (traverse validate_Choice xs); simpl; [discriminate|].
    intros [= <-]. apply IH. reflexivity.
  - intros [= <-]. destruct x; simpl in Hx; congruence.
Qed.

Lemma validate_choices_Raised (v : pyval) (e : exn) :
  validate_List validate_Choice v = Raised e -> e = ValidationError.
Proof.
  destruct v; simpl; try congruence. apply traverse_validate_Choice_Raised.
Qed.

Lemma traverse_validate_Choice_inv (xs : list pyval) (cs : list Choice.t) :
  traverse validate_Choice xs = Normal cs -> xs = PyChoice <$> cs.
Proof.
  revert cs. induction xs as [|x xs IH]; intros cs; simpl.
  - intros [= <-]. reflexivity.
  - destruct x; simpl; try discriminate.
    destruct (traverse validate_Choice xs) as [cs'|]; simpl; [|discriminate].
    intros [= <-]. rewrite fmap_cons, (IH cs' eq_refl). reflexivity.
Qed.

(* ===================================================================== *)
(** ** More on the message schema                                         *)
(* ===================================================================== *)

(** X1: a message built without a [type] argument has size [0], whatever
    its payload: the declared default is the string ["text"], which is not
    the member [text]. *)
Theorem message_without_type_has_size_zero (pl : option pyval) (m : BotMessage.t) :
  BotMessage.new None pl = Normal m ->
  BotMessage.messageSize m = Normal 0.
Proof.
  unfold BotMessage.new; simpl. destruct pl as [v|]; simpl.
  - destruct (validate_BotPayload v); simpl; [|discriminate].
    intros [= <-]. reflexivity.
  - intros [= <-]. reflexivity.
Qed.

Lemma message_without_type_has_size_zero_witness :
  BotMessage.new None
    (Some (PyPayload (TextPayload (BotTextMessage.mk "hi there" true))))
  = Normal (BotMessage.mk (PyStr "text")
              (PyPayload (TextPayload (BotTextMessage.mk "hi there" true)))) ∧
  BotMessage.messageSize
    (BotMessage.mk (PyStr "text")
       (PyPayload (TextPayload (BotTextMessage.mk "hi there" true))))
  = Normal 0.
Proof.
  split; [reflexivity|].
  apply (message_without_type_has_size_zero
           (Some (PyPayload (TextPayload (BotTextMessage.mk "hi there" true))))).
  reflexivity.
Defined.

(** X2: a message built with type [text], given as the member or as its
    value, measures the [text] of a Text, Button or Dropdown payload, and
    raises [AttributeError] on an Image or HTML payload, which has none. *)
Theorem text_tagged_message_size (ty : pyval) (p : BotPayload) (m : BotMessage.t) :
  ty = PyMessageType BotMessageTypes.text ∨ ty = PyStr "text" ->
  BotMessage.new (Some ty) (Some (PyPayload p)) = Normal m ->
  BotMessage.messageSize m
  = match payload_text p with
    | Some s => Normal (Z.of_nat (String.length s))
    | None => Raised AttributeError
    end.
Proof.
  intros [-> | ->]; intros [= <-]; destruct p; reflexivity.
Qed.

Lemma text_tagged_message_size_witness :
  BotMessage.messageSize
    (BotMessage.mk (PyMessageType BotMessageTypes.text)
       (PyPayload (ButtonPayload (BotButtonMessage.mk "Pick one" [] true))))
  = Normal 8 ∧
  BotMessage.messageSize
    (BotMessage.mk (PyMessageType BotMessageTypes.text)
       (PyPayload (HTMLPayload (BotHTMLMessage.mk "<b>hi</b>"))))
  = Raised AttributeError.
Proof.
  split.
  - apply (text_tagged_message_size (PyStr "text")
             (ButtonPayload (BotButtonMessage.mk "Pick one" [] true)));
      [right|]; reflexivity.
  - apply (text_tagged_message_size (PyMessageType BotMessageTypes.text)
             (HTMLPayload (BotHTMLMessage.mk "<b>hi</b>")));
      [left|]; reflexivity.
Defined.



(** X4: a constructor of the schema that fails, fails with
    [ValidationError]: no argument makes one of them raise anything else. *)
Theorem constructors_raise_only_ValidationError (e : exn) :
  (∀ label value, new_Choice label value = Raised e -> e = ValidationError) ∧
  (∀ text choices active,
     new_BotButtonMessage text choices active = Raised e -> e = ValidationError) ∧
  (∀ text choices active,
     new_BotDropdownMessage text choices active = Raised e -> e = ValidationError) ∧
  (∀ html, new_BotHTMLMessage html = Raised e -> e = ValidationError) ∧
  (∀ url, new_BotImageMessage url = Raised e -> e = ValidationError) ∧
  (∀ text useMarkdown,
     new_BotTextMessage text useMarkdown = Raised e -> e = ValidationError).
Proof.
  repeat split; intros;
    match goal with H : _ = Raised e |- _ => revert H end;
    unfold new_Choice, new_BotButtonMessage, new_BotDropdownMessage,
      new_BotHTMLMessage, new_BotImageMessage, new_BotTextMessage;
    split_fields; intros [= <-];
    match goal with
    | H : Field _ _ _ = Raised _ |- _ =>
        apply Field_Raised in H; [exact H|];
        first [ exact validate_str_Raised | exact validate_bool_Raised
              | exact validate_choices_Raised ]
    end.
Qed.

Lemma constructors_raise_only_ValidationError_witness :
  new_BotDropdownMessage None (Some (PyList [PyStr "yes"])) None
  = Raised ValidationError ∧
  ValidationError = ValidationError.
Proof.
  split; [reflexivity|].
  apply (proj1 (proj2 (proj2 (constructors_raise_only_ValidationError
                                ValidationError)))
           None (Some (PyList [PyStr "yes"])) None).
  reflexivity.
Defined.

(** X5: building an instance again from its own field values gives the
    same instance: a constructor takes well-typed values as they are, with
    no trimming, case folding or reordering. *)
Theorem constructors_keep_field_values :
  (∀ c, new_Choice (Some (PyStr (Choice.label c)))
                   (Some (PyStr (Choice.value c))) = Normal c) ∧
  (∀ m, new_BotButtonMessage
          (Some (PyStr (BotButtonMessage.text m)))
          (Some (PyList (PyChoice <$> BotButtonMessage.choices m)))
          (Some (PyBool (BotButtonMessage.active m))) = Normal m) ∧
  (∀ m, new_BotDropdownMessage
          (Some (PyStr (BotDropdownMessage.text m)))
          (Some (PyList (PyChoice <$> BotDropdownMessage.choices m)))
          (Some (PyBool (BotDropdownMessage.active m))) = Normal m) ∧
  (∀ m, new_BotHTMLMessage (Some (PyStr (BotHTMLMessage.html m))) = Normal m) ∧
  (∀ m, new_BotImageMessage (Some (PyStr (BotImageMessage.url m))) = Normal m) ∧
  (∀ m, new_BotTextMessage (Some (PyStr (BotTextMessage.text m)))
                           (Some (PyBool (BotTextMessage.useMarkdown m)))
        = Normal m).
Proof.
  repeat split; intros [];
    unfold new_BotButtonMessage, new_BotDropdownMessage; simpl;
    rewrite ?traverse_validate_Choice; reflexivity.
Qed.

(** X6: a list with no dict among its items ([None], bools, numbers,
    strings, lists, enum members, instances of the schema classes), given
    as the [choices] argument of a Button or a Dropdown message, is
    accepted exactly when every item is a [Choice] instance, and the
    message then has those choices, in that order.  A Dropdown built
    without [choices] is the one built with the empty list, whatever its
    other arguments. *)
Theorem choices_accepted_iff_all_Choice (xs : list pyval) :
  (∀ m, new_BotButtonMessage None (Some (PyList xs)) None = Normal m
        ↔ ∃ cs, xs = PyChoice <$> cs ∧ m = BotButtonMessage.mk "" cs true) ∧
  (∀ m, new_BotDropdownMessage None (Some (PyList xs)) None = Normal m
        ↔ ∃ cs, xs = PyChoice <$> cs ∧ m = BotDropdownMessage.mk "" cs true) ∧
  (∀ text active,
     new_BotDropdownMessage text None active
     = new_BotDropdownMessage text (Some (PyList [])) active).
Proof.
  split; [|split].
  - intros m. unfold new_BotButtonMessage; simpl. split.
    + destruct (traverse validate_Choice xs) as [cs|] eqn:Hcs; simpl;
        [|discriminate].
      intros [= <-]. exists cs. split; [|reflexivity].
      apply traverse_validate_Choice_inv, Hcs.
    + intros [cs [-> ->]]. rewrite traverse_validate_Choice. reflexivity.
  - intros m. unfold new_BotDropdownMessage; simpl. split.
    + destruct (traverse validate_Choice xs) as [cs|] eqn:Hcs; simpl;
        [|discriminate].
      intros [= <-]. exists cs. split; [|reflexivity].
      apply traverse_validate_Choice_inv, Hcs.
    + intros [cs [-> ->]]. rewrite traverse_validate_Choice. reflexivity.
  - reflexivity.
Qed.

Lemma choices_accepted_iff_all_Choice_witness :
  let xs := [PyChoice (Choice.mk "Yes" "y"); PyChoice (Choice.mk "No" "n")] in
  new_BotDropdownMessage None (Some (PyList xs)) None
  = Normal (BotDropdownMessage.mk ""
              [Choice.mk "Yes" "y"; Choice.mk "No" "n"] true).
Proof.
  intros xs.
  apply (proj2 (proj1 (proj2 (choices_accepted_iff_all_Choice xs)) _)).
  exists [Choice.mk "Yes" "y"; Choice.mk "No" "n"]. split; reflexivity.
Defined.

(** X7: a string names a member of [BotMessageTypes] exactly when it is
    that member's value, letter for letter; and giving [type] as a member's
    value builds the same message as giving the member. *)
Theorem BotMessageTypes_value_round_trip :
  (∀ m, BotMessageTypes.of_value (BotMessageTypes_value m) = Some m) ∧
  (∀ s m, BotMessageTypes.of_value s = Some m -> s = BotMessageTypes_value m) ∧
  (∀ m pl, BotMessage.new (Some (PyStr (BotMessageTypes_value m))) pl
           = BotMessage.new (Some (PyMessageType m)) pl).
Proof.
  split; [|split].
  - intros []; reflexivity.
  - intros s m. unfold BotMessageTypes.of_value.
    repeat match goal with
    | |- context [String.eqb s ?v] =>
        let E := fresh "E" in
        destruct (String.eqb s v) eqn:E;
        [apply String.eqb_eq in E; subst s; intros [= <-]; reflexivity|]
    end.
    discriminate.
  - intros [] pl; reflexivity.
Qed.

Lemma BotMessageTypes_value_round_trip_witness :
  BotMessageTypes.of_value "dropdown" = Some BotMessageTypes.dropdown ∧
  "dropdown"%string = BotMessageTypes_value BotMessageTypes.dropdown ∧
  BotMessageTypes.of_value "Dropdown" = None.
Proof.
  split; [reflexivity|]. split; [|reflexivity].
  apply (proj1 (proj2 BotMessageTypes_value_round_trip)
           "dropdown"%string BotMessageTypes.dropdown).
  reflexivity.
Defined.

(* ===================================================================== *)
(** ** More on the derived fields                                         *)
(* ===================================================================== *)





Lemma traverse_app_Normal {A B} (f : A -> outcome B) (xs ys : list A)
    (us vs : list B) :
  traverse f xs = Normal us -> traverse f ys = Normal vs ->
  traverse f (xs ++ ys) = Normal (us ++ vs).
Proof.
  revert us. induction xs as [|x xs IH]; intros us; simpl.
  - intros [= <-] Hys. exact Hys.
  - destruct (f x) as [y|]; simpl; [|discriminate].
    destruct (traverse f xs) as [us'|]; simpl; [|discriminate].
    intros [= <-] Hys. rewrite (IH us' eq_refl Hys). reflexivity.
Qed.

Lemma sumZ_app (us vs : list Z) : sumZ (us ++ vs) = sumZ us + sumZ vs.
Proof.
  unfold sumZ. induction us as [|u us IH]; simpl; [reflexivity|].
  rewrite IH. lia.
Qed.


(** With an event, the output size is the total of the replies' sizes. *)
Lemma botOutputSize_with_event (m : BotMetrics.t) (e : Event.t) :
  BotMetrics.event m = Some e ->
  BotMetrics.botOutputSize m
  = match traverse BotMessage.messageSize (Event.botReply e) with
    | Normal sizes => Normal (sumZ sizes)
    | Raised x => Raised x
    end.
Proof.
  intros He. unfold BotMetrics.botOutputSize, BotMetrics.event_attr.
  rewrite He, obind_Normal, functools_reduce_sum.
  destruct (traverse BotMessage.messageSize (Event.botReply e)); reflexivity.
Qed.



(** X9: the output size is additive: over an event whose replies are those
    of one event followed by those of another, it is the sum of the two
    output sizes. *)
Theorem botOutputSize_app (m1 m2 m : BotMetrics.t) (e1 e2 e : Event.t) (k1 k2 : Z) :
  BotMetrics.event m1 = Some e1 -> BotMetrics.event m2 = Some e2 ->
  BotMetrics.event m = Some e ->
  Event.botReply e = Event.botReply e1 ++ Event.botReply e2 ->
  BotMetrics.botOutputSize m1 = Normal k1 ->
  BotMetrics.botOutputSize m2 = Normal k2 ->
  BotMetrics.botOutputSize m = Normal (k1 + k2).
Proof.
  intros H1 H2 H Happ.
  rewrite (botOutputSize_with_event m1 e1 H1), (botOutputSize_with_event m2 e2 H2),
    (botOutputSize_with_event m e H), Happ.
  destruct (traverse BotMessage.messageSize (Event.botReply e1)) as [us|] eqn:Hus;
    [|discriminate].
  destruct (traverse BotMessage.messageSize (Event.botReply e2)) as [vs|] eqn:Hvs;
    [|discriminate].
  intros [= <-] [= <-].
  rewrite (traverse_app_Normal _ _ _ us vs Hus Hvs), sumZ_app. reflexivity.
Qed.

Lemma botOutputSize_app_witness :
  let with_replies rs :=
    BotMetrics.mk (Some (Event.mk "u" "c" "e" 0 (PyStr "incoming") ∅ rs))
                  None None true in
  BotMetrics.botOutputSize (with_replies [hi_there; hi_there]) = Normal (8 + 8).
Proof.
  intros with_replies.
  apply (botOutputSize_app (with_replies [hi_there]) (with_replies [hi_there])
           (with_replies [hi_there; hi_there])
           (Event.mk "u" "c" "e" 0 (PyStr "incoming") ∅ [hi_there])
           (Event.mk "u" "c" "e" 0 (PyStr "incoming") ∅ [hi_there])
           (Event.mk "u" "c" "e" 0 (PyStr "incoming") ∅ [hi_there; hi_there]));
    reflexivity.
Defined.

(** X10: with an event whose payload lacks the ["text"] entry,
    [userInputSize] raises [KeyError]; lacking the ["type"] entry,
    [inputMessageType] raises [KeyError].  Both do on the empty payload an
    event has by default. *)
Theorem payload_entries_are_required (m : BotMetrics.t) (e : Event.t) :
  BotMetrics.event m = Some e ->
  (Event.payload e !! "text"%string = None ->
   BotMetrics.userInputSize m = Raised KeyError) ∧
  (Event.payload e !! "type"%string = None ->
   BotMetrics.inputMessageType m = Raised KeyError) ∧
  (Event.payload e = ∅ ->
   BotMetrics.userInputSize m = Raised KeyError ∧
   BotMetrics.inputMessageType m = Raised KeyError).
Proof.
  intros He.
  unfold BotMetrics.userInputSize, BotMetrics.inputMessageType,
    BotMetrics.event_attr, py_getitem.
  rewrite He; simpl. split; [|split].
  - intros ->. reflexivity.
  - intros ->. reflexivity.
  - intros ->. rewrite !lookup_empty. split; reflexivity.
Qed.

Lemma payload_entries_are_required_witness :
  let e := Event.mk "u" "c" "e" 0 (PyStr "incoming") ∅ [] in
  BotMetrics.userInputSize (BotMetrics.mk (Some e) None None true)
  = Raised KeyError ∧
  BotMetrics.inputMessageType (BotMetrics.mk (Some e) None None true)
  = Raised KeyError.
Proof.
  intros e.
  apply (proj2 (proj2 (payload_entries_are_required
                         (BotMetrics.mk (Some e) None None true) e eq_refl))).
  reflexivity.
Defined.

(** X11: [userInputSize] takes the length of whatever the ["text"] entry
    holds: the number of characters of a string, the number of items of a
    list, and [TypeError] for [None], a bool or a number.
    [inputMessageType] returns the ["type"] entry as it is, string or
    not. *)
Theorem payload_entries_are_not_checked (m : BotMetrics.t) (e : Event.t) :
  BotMetrics.event m = Some e ->
  (∀ s, Event.payload e !! "text"%string = Some (PyStr s) ->
        BotMetrics.userInputSize m = Normal (Z.of_nat (String.length s))) ∧
  (∀ xs, Event.payload e !! "text"%string = Some (PyList xs) ->
         BotMetrics.userInputSize m = Normal (Z.of_nat (length xs))) ∧
  (∀ v, Event.payload e !! "text"%string = Some v ->
        v = PyNone ∨ (∃ b, v = PyBool b) ∨ (∃ z, v = PyInt z) ∨ (∃ f, v = PyFloat f) ->
        BotMetrics.userInputSize m = Raised TypeError) ∧
  (∀ v, Event.payload e !! "type"%string = Some v ->
        BotMetrics.inputMessageType m = Normal v).
Proof.
  intros He.
  unfold BotMetrics.userInputSize, BotMetrics.inputMessageType,
    BotMetrics.event_attr, py_getitem.
  rewrite He; simpl. repeat split.
  - intros s ->. reflexivity.
  - intros xs ->. reflexivity.
  - intros v -> [-> | [[b ->] | [[z ->] | [f ->]]]]; reflexivity.
  - intros v ->. reflexivity.
Qed.

Lemma payload_entries_are_not_checked_witness :
  let e := Event.mk "u" "c" "e" 0 (PyStr "incoming")
             (<["text" := PyInt 42]> (<["type" := PyInt 7]> ∅)) [] in
  BotMetrics.userInputSize (BotMetrics.mk (Some e) None None true)
  = Raised TypeError ∧
  BotMetrics.inputMessageType (BotMetrics.mk (Some e) None None true)
  = Normal (PyInt 7).
Proof.
  intros e.
  pose proof (payload_entries_are_not_checked
                (BotMetrics.mk (Some e) None None true) e eq_refl)
    as [_ [_ [Htext Htype]]].
  split.
  - apply (Htext (PyInt 42)); [reflexivity|]. right. right. left. eauto.
  - apply (Htype (PyInt 7)). reflexivity.
Defined.

(** X12: [userId] and [conversationId] raise [AttributeError] on a record
    without event.  Once [captureEvent] has run, they are the identifiers
    of the captured event, and the three other derived fields are what
    that event alone determines, whatever event the record held before. *)
Theorem derived_fields_read_captured_event
    (l : loc) (m : BotMetrics.t) (ev : Event.t) (σ : Store) :
  heap σ !! l = Some m ->
  (BotMetrics.event m = None ->
   BotMetrics.userId m = Raised AttributeError ∧
   BotMetrics.conversationId m = Raised AttributeError) ∧
  ∃ m' σ',
    captureEvent l ev σ = (Normal tt, σ') ∧ heap σ' !! l = Some m' ∧
    BotMetrics.userId m' = Normal (Event.userId ev) ∧
    BotMetrics.conversationId m' = Normal (Event.conversationId ev) ∧
    ∀ m0, BotMetrics.event m0 = Some ev ->
          BotMetrics.userInputSize m' = BotMetrics.userInputSize m0 ∧
          BotMetrics.botOutputSize m' = BotMetrics.botOutputSize m0 ∧
          BotMetrics.inputMessageType m' = BotMetrics.inputMessageType m0.
Proof.
  intros Hm. split.
  - unfold BotMetrics.userId, BotMetrics.conversationId, BotMetrics.event_attr.
    intros ->. split; reflexivity.
  - eexists _, _. split; [apply (captureEvent_live l ev m σ Hm)|].
    split; [apply lookup_insert_eq|]. split; [reflexivity|].
    split; [reflexivity|].
    intros m0 H0.
    unfold BotMetrics.userInputSize, BotMetrics.botOutputSize,
      BotMetrics.inputMessageType, BotMetrics.event_attr.
    rewrite H0. repeat split.
Qed.

Lemma derived_fields_read_captured_event_witness :
  let σ := mkStore {[ 0%nat := BotMetrics.new ]} (clock boot) 0 [] [] in
  ∃ m' σ',
    captureEvent 0%nat hello_event σ = (Normal tt, σ') ∧
    heap σ' !! 0%nat = Some m' ∧
    BotMetrics.userId m' = Normal (Event.userId hello_event) ∧
    BotMetrics.conversationId m' = Normal (Event.conversationId hello_event) ∧
    ∀ m0, BotMetrics.event m0 = Some hello_event ->
          BotMetrics.userInputSize m' = BotMetrics.userInputSize m0 ∧
          BotMetrics.botOutputSize m' = BotMetrics.botOutputSize m0 ∧
          BotMetrics.inputMessageType m' = BotMetrics.inputMessageType m0.
Proof.
  intros σ.
  apply (proj2 (derived_fields_read_captured_event
                  0%nat BotMetrics.new hello_event σ eq_refl)).
Defined.

(* ===================================================================== *)
(** ** More on the mutators                                               *)
(* ===================================================================== *)

Lemma protocol_body_run (ev : Event.t) (l : loc) (m : BotMetrics.t) (σ : Store) :
  heap σ !! l = Some m ->
  protocol_body ev l σ
  = (Normal tt,
     set_heap (<[l := BotMetrics.mk (Some ev)
                        (Some (clock σ (ticks σ)))
                        (Some (clock σ (S (ticks σ))))
                        (BotMetrics.success m)]> (heap σ))
       (set_ticks (S (S (ticks σ))) σ)).
Proof.
  intros Hm. unfold protocol_body.
  rewrite (bind_M_Normal (captureEvent l ev) _ σ _ tt (captureEvent_live l ev m σ Hm)).
  set (σ1 := set_heap _ σ).
  assert (H1 : heap σ1 !! l = Some (BotMetrics.set_event (Some ev) m))
    by apply lookup_insert_eq.
  rewrite (bind_M_Normal (trackStart l) _ σ1 _ tt (trackStart_live l _ σ1 H1)).
  set (σ2 := set_heap _ (set_ticks _ σ1)).
  assert (H2 : heap σ2 !! l
               = Some (BotMetrics.set_startTime (Some (clock σ1 (ticks σ1)))
                         (BotMetrics.set_event (Some ev) m)))
    by apply lookup_insert_eq.
  rewrite (trackEnd_live l _ σ2 H2).
  unfold σ2, σ1. destruct σ as [h c n out log]; unfold set_heap, set_ticks; simpl.
  rewrite !insert_insert_eq. reflexivity.
Qed.

Lemma failing_body_run (ev : Event.t) (x : exn) (l : loc) (m : BotMetrics.t)
    (σ : Store) :
  heap σ !! l = Some m ->
  failing_body ev x l σ
  = (Raised x,
     set_heap (<[l := BotMetrics.mk (Some ev) (Some (clock σ (ticks σ)))
                        (BotMetrics.endTime m) (BotMetrics.success m)]> (heap σ))
       (set_ticks (S (ticks σ)) σ)).
Proof.
  intros Hm. unfold failing_body.
  rewrite (bind_M_Normal (captureEvent l ev) _ σ _ tt (captureEvent_live l ev m σ Hm)).
  set (σ1 := set_heap _ σ).
  assert (H1 : heap σ1 !! l = Some (BotMetrics.set_event (Some ev) m))
    by apply lookup_insert_eq.
  rewrite (bind_M_Normal (trackStart l) _ σ1 _ tt (trackStart_live l _ σ1 H1)).
  unfold raise, σ1. destruct σ as [h c n out log]; unfold set_heap, set_ticks; simpl.
  rewrite !insert_insert_eq. reflexivity.
Qed.

(** X13: [trackStart] followed by [trackEnd] on a live record takes two
    consecutive readings of the clock, and [responseTime] is then the
    second minus the first, whatever times the record held before; the
    event and [success] are as they were. *)
Theorem track_start_then_end (l : loc) (m : BotMetrics.t) (σ : Store) :
  heap σ !! l = Some m ->
  ∃ m' σ',
    (trackStart l;; trackEnd l) σ = (Normal tt, σ') ∧
    heap σ' !! l = Some m' ∧ ticks σ' = S (S (ticks σ)) ∧
    BotMetrics.responseTime m'
    = PyFloat (PrimFloat.sub (clock σ (S (ticks σ))) (clock σ (ticks σ))) ∧
    BotMetrics.event m' = BotMetrics.event m ∧
    BotMetrics.success m' = BotMetrics.success m.
Proof.
  intros Hm. eexists _, _. split.
  - rewrite (bind_M_Normal (trackStart l) _ σ _ tt (trackStart_live l m σ Hm)).
    apply trackEnd_live. apply lookup_insert_eq.
  - split; [apply lookup_insert_eq|]. repeat split.
Qed.

Lemma track_start_then_end_witness :
  let m := BotMetrics.mk None (Some PrimFloat.two) (Some PrimFloat.one) false in
  let σ := mkStore {[ 0%nat := m ]} (clock boot) 0 [] [] in
  ∃ m' σ',
    (trackStart 0%nat;; trackEnd 0%nat) σ = (Normal tt, σ') ∧
    heap σ' !! 0%nat = Some m' ∧ ticks σ' = 2%nat ∧
    BotMetrics.responseTime m'
    = PyFloat (PrimFloat.sub (clock σ 1%nat) (clock σ 0%nat)) ∧
    BotMetrics.event m' = None ∧ BotMetrics.success m' = false.
Proof.
  intros m σ. apply (track_start_then_end 0%nat m σ eq_refl).
Defined.

(** X14: the mutators overwrite.  Capturing one event and then another
    leaves the store as capturing the second alone does; after two calls of
    [trackStart] the start time is the later reading. *)
Theorem mutators_overwrite (l : loc) (m : BotMetrics.t) (σ : Store) :
  heap σ !! l = Some m ->
  (∀ ev1 ev2,
     (captureEvent l ev1;; captureEvent l ev2) σ = captureEvent l ev2 σ) ∧
  (∃ m' σ',
     (trackStart l;; trackStart l) σ = (Normal tt, σ') ∧
     heap σ' !! l = Some m' ∧
     BotMetrics.startTime m' = Some (clock σ (S (ticks σ)))).
Proof.
  intros Hm. split.
  - intros ev1 ev2.
    rewrite (bind_M_Normal (captureEvent l ev1) _ σ _ tt
               (captureEvent_live l ev1 m σ Hm)).
    rewrite (captureEvent_live l ev2 m σ Hm).
    rewrite (captureEvent_live l ev2 (BotMetrics.set_event (Some ev1) m));
      [|apply lookup_insert_eq].
    destruct σ as [h c n out log]; unfold set_heap; simpl.
    rewrite insert_insert_eq. reflexivity.
  - eexists _, _. split.
    + rewrite (bind_M_Normal (trackStart l) _ σ _ tt (trackStart_live l m σ Hm)).
      apply trackStart_live. apply lookup_insert_eq.
    + split; [apply lookup_insert_eq|]. reflexivity.
Qed.

Lemma mutators_overwrite_witness :
  let σ := mkStore {[ 0%nat := BotMetrics.new ]} (clock boot) 0 [] [] in
  let other := Event.mk "u" "c" "e" 0 (PyStr "incoming") ∅ [] in
  (captureEvent 0%nat other;; captureEvent 0%nat hello_event) σ
  = captureEvent 0%nat hello_event σ.
Proof.
  intros σ other.
  apply (proj1 (mutators_overwrite 0%nat BotMetrics.new σ eq_refl)).
Defined.

(* ===================================================================== *)
(** ** More on the console strategy                                       *)
(* ===================================================================== *)

Lemma console_row_length (round2 : float -> float) (m : BotMetrics.t)
    (row : list cell) :
  console_row round2 m = Normal row -> length row = length console_field_names.
Proof.
  intros H. apply console_row_Normal in H
    as (s & e & txt & ty & n & k & _ & _ & _ & _ & _ & _ & ->).
  reflexivity.
Qed.

(** X15: the console strategy only prints.  It leaves every record, the
    clock and the log of calls as they are; when it raises, nothing was
    printed; when it returns, it printed one table with the eight column
    names and one row of eight cells. *)
Theorem console_persist_only_prints (round2 : float -> float) (l : loc) (σ : Store) :
  let r := ConsoleMetrics.persist round2 l σ in
  heap r.2 = heap σ ∧ ticks r.2 = ticks σ ∧ persisted r.2 = persisted σ ∧
  (∀ x, r.1 = Raised x -> r.2 = σ) ∧
  (r.1 = Normal tt ->
   ∃ row, length row = 8%nat ∧
          stdout r.2 = stdout σ ++ [mkPrettyTable console_field_names [row]]).
Proof.
  destruct (heap σ !! l) as [m|] eqn:Hm; simpl.
  - rewrite (console_persist_live round2 l m σ Hm).
    destruct (console_row round2 m) as [row|x0] eqn:Hrow; simpl.
    + do 3 (split; [reflexivity|]). split; [discriminate|].
      intros _. exists row. split; [|reflexivity].
      apply (console_row_length round2 m row Hrow).
    + do 3 (split; [reflexivity|]). split; [reflexivity|discriminate].
  - unfold ConsoleMetrics.persist. rewrite bind_M. unfold load. rewrite Hm.
    do 3 (split; [reflexivity|]). split; [reflexivity|discriminate].
Qed.

Lemma console_persist_only_prints_witness :
  let m := BotMetrics.mk (Some hello_event) (Some PrimFloat.one) None false in
  let σ := mkStore {[ 0%nat := m ]} (clock boot) 0 [] [] in
  ∃ row, length row = 8%nat ∧
         stdout (ConsoleMetrics.persist (fun f => f) 0%nat σ).2
         = stdout σ ++ [mkPrettyTable console_field_names [row]].
Proof.
  intros m σ.
  apply (proj2 (proj2 (proj2 (proj2
           (console_persist_only_prints (fun f => f) 0%nat σ))))).
  reflexivity.
Defined.

(** X16: the console strategy returns only on a populated record: if it
    returns, the record has a start time and an event whose payload has a
    ["type"] entry and a sized ["text"] entry, and the output size of the
    record is defined. *)
Theorem console_persist_returns_only_if_populated
    (round2 : float -> float) (l : loc) (m : BotMetrics.t) (σ : Store) :
  heap σ !! l = Some m ->
  (ConsoleMetrics.persist round2 l σ).1 = Normal tt ->
  ∃ s e txt ty n k,
    BotMetrics.startTime m = Some s ∧ BotMetrics.event m = Some e ∧
    Event.payload e !! "text"%string = Some txt ∧ py_len txt = Normal n ∧
    Event.payload e !! "type"%string = Some ty ∧
    BotMetrics.botOutputSize m = Normal k.
Proof.
  intros Hm. rewrite (console_persist_live round2 l m σ Hm).
  destruct (console_row round2 m) as [row|x] eqn:Hrow; simpl; [|discriminate].
  intros _. apply console_row_Normal in Hrow
    as (s & e & txt & ty & n & k & Hs & He & Htxt & Hn & Hty & Hk & _).
  exists s, e, txt, ty, n, k. repeat split; assumption.
Qed.

Lemma console_persist_returns_only_if_populated_witness :
  let m := BotMetrics.mk (Some hello_event) (Some PrimFloat.one) None false in
  let σ := mkStore {[ 0%nat := m ]} (clock boot) 0 [] [] in
  ∃ s e txt ty n k,
    BotMetrics.startTime m = Some s ∧ BotMetrics.event m = Some e ∧
    Event.payload e !! "text"%string = Some txt ∧ py_len txt = Normal n ∧
    Event.payload e !! "type"%string = Some ty ∧
    BotMetrics.botOutputSize m = Normal k.
Proof.
  intros m σ.
  apply (console_persist_returns_only_if_populated (fun f => f) 0%nat m σ);
    reflexivity.
Defined.

(** X17: the console strategy computes its cells from left to right and
    stops at the first that fails: [TypeError] without start time, whatever
    else is missing; with a start time, [AttributeError] without event;
    with both, [KeyError] without the ["type"] entry, or with it but
    without the ["text"] entry. *)
Theorem console_persist_first_error
    (round2 : float -> float) (l : loc) (m : BotMetrics.t) (σ : Store) :
  heap σ !! l = Some m ->
  (BotMetrics.startTime m = None ->
   ConsoleMetrics.persist round2 l σ = (Raised TypeError, σ)) ∧
  (∀ s, BotMetrics.startTime m = Some s -> BotMetrics.event m = None ->
        ConsoleMetrics.persist round2 l σ = (Raised AttributeError, σ)) ∧
  (∀ s e, BotMetrics.startTime m = Some s -> BotMetrics.event m = Some e ->
          Event.payload e !! "type"%string = None ->
          ConsoleMetrics.persist round2 l σ = (Raised KeyError, σ)) ∧
  (∀ s e ty, BotMetrics.startTime m = Some s -> BotMetrics.event m = Some e ->
             Event.payload e !! "type"%string = Some ty ->
             Event.payload e !! "text"%string = None ->
             ConsoleMetrics.persist round2 l σ = (Raised KeyError, σ)).
Proof.
  intros Hm. rewrite (console_persist_live round2 l m σ Hm).
  unfold console_row, BotMetrics.conversationId, BotMetrics.userId,
    BotMetrics.inputMessageType, BotMetrics.userInputSize,
    BotMetrics.event_attr, py_getitem.
  repeat split.
  - intros ->. reflexivity.
  - intros s -> ->. reflexivity.
  - intros s e -> ->; simpl. intros ->. reflexivity.
  - intros s e ty -> ->; simpl. intros -> ->. reflexivity.
Qed.

Lemma console_persist_first_error_witness :
  let m := BotMetrics.mk (Some hello_event) None None true in
  let σ := mkStore {[ 0%nat := m ]} (clock boot) 0 [] [] in
  ConsoleMetrics.persist (fun f => f) 0%nat σ = (Raised TypeError, σ).
Proof.
  intros m σ.
  apply (proj1 (console_persist_first_error (fun f => f) 0%nat m σ eq_refl)).
  reflexivity.
Defined.

(* ===================================================================== *)
(** ** More on the tracked scope                                          *)
(* ===================================================================== *)

(** The world once [TrackChatbotResponseMetrics(persist)] has run in [w]. *)
Lemma init_run (round2 : float -> float) (persist : option PersistMetrics.t)
    (w : World) :
  TrackChatbotResponseMetrics.__init__ round2 persist w
  = (Normal (new_tracker w),
     mkWorld (store w)
       (<[new_tracker w :=
            mkTracker (default (ConsoleMetrics.new round2) persist) None]>
          (trackers w))).
Proof. reflexivity. Qed.

(** A scope on a tracker that was just constructed, whose body leaves the
    tracker alone. *)
Lemma tracked_one_persist (round2 : float -> float)
    (persist : option PersistMetrics.t) (body : loc -> M unit) (w : World)
    (r : outcome unit) (σ2 : Store) (m : BotMetrics.t) :
  body (scope_record (store w)) (entered (store w)) = (r, σ2) ->
  heap σ2 !! scope_record (store w) = Some m ->
  tracked round2 persist (fun value => liftM (body value)) w
  = let (r', σ') :=
      PersistMetrics.persist (default (ConsoleMetrics.new round2) persist)
        (scope_record (store w))
        (at_persist (scope_record (store w)) (finalized (raised r) m) σ2) in
    (r', mkWorld σ'
           (<[new_tracker w :=
                mkTracker (default (ConsoleMetrics.new round2) persist)
                          (Some (scope_record (store w)))]> (trackers w))).
Proof.
  intros Hbody Hm. unfold tracked.
  rewrite (bind_W_Normal _ _ _ _ _ (init_run round2 persist w)).
  set (strategy := default (ConsoleMetrics.new round2) persist).
  set (mgr := new_tracker w).
  set (w0 := mkWorld (store w) (<[mgr := mkTracker strategy None]> (trackers w))).
  assert (Hmgr : trackers w0 !! mgr = Some (mkTracker strategy None))
    by apply lookup_insert_eq.
  rewrite (with_statement_one_persist mgr (mkTracker strategy None)
             (mkTracker strategy (Some (scope_record (store w))))
             (fun value => liftM (body value)) w0
             (mkWorld σ2 (trackers (entered_world mgr (mkTracker strategy None) w0)))
             r (scope_record (store w)) m Hmgr).
  - simpl. destruct (PersistMetrics.persist strategy _ _) as [r' σ'].
    unfold w0; simpl. rewrite insert_insert_eq. reflexivity.
  - apply liftM_run. exact Hbody.
  - apply lookup_insert_eq.
  - reflexivity.
  - exact Hm.
Qed.



(** X19: under the default console strategy, a scope whose body captures
    an event with a ["type"] entry, a sized ["text"] entry and measurable
    replies, then tracks the start and the end, completes normally.  It
    reads the clock twice, leaves one record holding the event, both
    readings and [success] true, enters that record once in the log, and
    prints one row: the rounded start, the success glyph, the event's
    identifiers, its type, the two sizes and the rounded difference of the
    readings.  The tracker it constructed names that record. *)
Theorem console_scope_reports_success
    (round2 : float -> float) (ev : Event.t) (txt ty : pyval) (n : Z)
    (sizes : list Z) (w : World) :
  Event.payload ev !! "text"%string = Some txt -> py_len txt = Normal n ->
  Event.payload ev !! "type"%string = Some ty ->
  traverse BotMessage.messageSize (Event.botReply ev) = Normal sizes ->
  let σ := store w in
  let c0 := clock σ (ticks σ) in
  let c1 := clock σ (S (ticks σ)) in
  let m := BotMetrics.mk (Some ev) (Some c0) (Some c1) true in
  tracked round2 None (fun r => liftM (protocol_body ev r)) w
  = (Normal tt,
     mkWorld
       (mkStore (<[scope_record σ := m]> (heap σ)) (clock σ) (S (S (ticks σ)))
          (stdout σ ++
           [mkPrettyTable console_field_names
              [[Value (PyFloat (round2 c0)); SuccessGlyph true;
                Str (Event.conversationId ev); Str (Event.userId ev);
                Value ty; Value (PyInt n); Value (PyInt (sumZ sizes));
                Seconds (PyFloat (round2 (PrimFloat.sub c1 c0)))]]])
          (persisted σ ++ [(scope_record σ, m)]))
       (<[new_tracker w :=
            mkTracker (ConsoleMetrics.new round2) (Some (scope_record σ))]>
          (trackers w))).
Proof.
  intros Htxt Hn Hty Hsizes σ c0 c1 m.
  pose proof (protocol_body_run ev (scope_record σ) BotMetrics.new (entered σ)
                (entered_live σ)) as Hrun.
  rewrite (tracked_one_persist round2 None (protocol_body ev) w _ _ m Hrun);
    [|apply lookup_insert_eq].
  simpl finalized.
  change (PersistMetrics.persist (default (ConsoleMetrics.new round2) None))
    with (ConsoleMetrics.persist round2).
  rewrite (console_persist_live round2 (scope_record (store w)) m);
    [|apply lookup_insert_eq].
  assert (Hk : BotMetrics.botOutputSize m = Normal (sumZ sizes)).
  { rewrite (botOutputSize_with_event m ev eq_refl), Hsizes. reflexivity. }
  rewrite (console_row_ready round2 m c0 ev txt ty n (sumZ sizes)
             eq_refl eq_refl Htxt Hn Hty Hk).
  unfold at_persist, entered, set_stdout, set_persisted, set_heap, set_ticks.
  subst σ c0 c1 m. destruct w as [[h c t out log] trs]; simpl.
  rewrite !insert_insert_eq. reflexivity.
Qed.

Lemma console_scope_reports_success_witness :
  (tracked (fun f => f) None (fun r => liftM (protocol_body hello_event r))
           boot_world).1 = Normal tt ∧
  ticks (store (tracked (fun f => f) None
                        (fun r => liftM (protocol_body hello_event r))
                        boot_world).2) = 2%nat.
Proof.
  rewrite (console_scope_reports_success (fun f => f) hello_event
             (PyStr "hello") (PyStr "text") 5 [8] boot_world
             eq_refl eq_refl eq_refl eq_refl).
  split; reflexivity.
Defined.

(** X20: under the default console strategy, a scope whose body captures
    an event with a ["type"] entry, a sized ["text"] entry and measurable
    replies, tracks the start and then raises, still completes normally:
    the error is absorbed, the record is persisted with [success] false
    and no end time, and the printed row carries the failure glyph and an
    inference time of [0]. *)
Theorem console_scope_reports_failure
    (round2 : float -> float) (ev : Event.t) (x : exn) (txt ty : pyval) (n : Z)
    (sizes : list Z) (w : World) :
  Event.payload ev !! "text"%string = Some txt -> py_len txt = Normal n ->
  Event.payload ev !! "type"%string = Some ty ->
  traverse BotMessage.messageSize (Event.botReply ev) = Normal sizes ->
  let σ := store w in
  let c0 := clock σ (ticks σ) in
  let m := BotMetrics.mk (Some ev) (Some c0) None false in
  tracked round2 None (fun r => liftM (failing_body ev x r)) w
  = (Normal tt,
     mkWorld
       (mkStore (<[scope_record σ := m]> (heap σ)) (clock σ) (S (ticks σ))
          (stdout σ ++
           [mkPrettyTable console_field_names
              [[Value (PyFloat (round2 c0)); SuccessGlyph false;
                Str (Event.conversationId ev); Str (Event.userId ev);
                Value ty; Value (PyInt n); Value (PyInt (sumZ sizes));
                Seconds (PyInt 0)]]])
          (persisted σ ++ [(scope_record σ, m)]))
       (<[new_tracker w :=
            mkTracker (ConsoleMetrics.new round2) (Some (scope_record σ))]>
          (trackers w))).
Proof.
  intros Htxt Hn Hty Hsizes σ c0 m.
  pose proof (failing_body_run ev x (scope_record σ) BotMetrics.new (entered σ)
                (entered_live σ)) as Hrun.
  set (m0 := BotMetrics.mk (Some ev) (Some c0) None true).
  rewrite (tracked_one_persist round2 None (failing_body ev x) w _ _ m0 Hrun);
    [|apply lookup_insert_eq].
  simpl finalized. change (BotMetrics.set_success false m0) with m.
  change (PersistMetrics.persist (default (ConsoleMetrics.new round2) None))
    with (ConsoleMetrics.persist round2).
  rewrite (console_persist_live round2 (scope_record (store w)) m);
    [|apply lookup_insert_eq].
  assert (Hk : BotMetrics.botOutputSize m = Normal (sumZ sizes)).
  { rewrite (botOutputSize_with_event m ev eq_refl), Hsizes. reflexivity. }
  rewrite (console_row_ready round2 m c0 ev txt ty n (sumZ sizes)
             eq_refl eq_refl Htxt Hn Hty Hk).
  unfold at_persist, entered, set_stdout, set_persisted, set_heap, set_ticks.
  subst σ c0 m m0. destruct w as [[h c t out log] trs]; simpl.
  rewrite !insert_insert_eq. reflexivity.
Qed.

Lemma console_scope_reports_failure_witness :
  (tracked (fun f => f) None
           (fun r => liftM (failing_body hello_event (RuntimeError "boom") r))
           boot_world).1
  = Normal tt.
Proof.
  rewrite (console_scope_reports_failure (fun f => f) hello_event
             (RuntimeError "boom") (PyStr "hello") (PyStr "text") 5 [8] boot_world
             eq_refl eq_refl eq_refl eq_refl).
  reflexivity.
Defined.

(** X21: under the default console strategy, a scope whose body raises
    before [trackStart] hands its caller a [TypeError], whatever the body
    raised: the record is flagged and entered in the log, nothing is
    printed. *)
Theorem console_scope_fails_before_start
    (round2 : float -> float) (x : exn) (w : World) :
  let σ := store w in
  tracked round2 None (fun _ => raiseS x) w
  = (Raised TypeError,
     mkWorld
       (mkStore (<[scope_record σ := BotMetrics.mk None None None false]> (heap σ))
          (clock σ) (ticks σ) (stdout σ)
          (persisted σ ++ [(scope_record σ, BotMetrics.mk None None None false)]))
       (<[new_tracker w :=
            mkTracker (ConsoleMetrics.new round2) (Some (scope_record σ))]>
          (trackers w))).
Proof.
  intros σ.
  assert (Hsame : tracked round2 None (fun _ => raiseS x) w
                  = tracked round2 None (fun value => liftM ((fun _ => raise x) value)) w).
  { unfold tracked. rewrite !(bind_W_Normal _ _ _ _ _ (init_run round2 None w)).
    unfold with_statement.
    set (w0 := mkWorld _ _).
    destruct (TrackChatbotResponseMetrics.__enter__ (new_tracker w) w0)
      as [[value|e] w1] eqn:Henter; rewrite !bind_W, Henter; [|reflexivity].
    destruct w1 as [σ1 trs1]. reflexivity. }
  rewrite Hsame.
  rewrite (tracked_one_persist round2 None (fun _ => raise x) w (Raised x)
             (entered (store w)) BotMetrics.new eq_refl (entered_live (store w))).
  simpl finalized.
  change (PersistMetrics.persist (default (ConsoleMetrics.new round2) None))
    with (ConsoleMetrics.persist round2).
  rewrite (console_persist_live round2 (scope_record (store w))
             (BotMetrics.mk None None None false));
    [|apply lookup_insert_eq].
  simpl.
  unfold at_persist, entered, set_persisted, set_heap.
  subst σ. destruct w as [[h c t out log] trs]; simpl.
  rewrite !insert_insert_eq. reflexivity.
Qed.

(** X22: [__exit__] on a tracker that was constructed but never entered
    raises [AttributeError], with or without an exception to report; no
    strategy is called and the store is as it was. *)
Theorem exit_without_enter (round2 : float -> float)
    (persist : option PersistMetrics.t) (type : option exn) (w : World) :
  (self ← TrackChatbotResponseMetrics.__init__ round2 persist;
   TrackChatbotResponseMetrics.__exit__ self type) w
  = (Raised AttributeError,
     mkWorld (store w)
       (<[new_tracker w :=
            mkTracker (default (ConsoleMetrics.new round2) persist) None]>
          (trackers w))).
Proof.
  rewrite (bind_W_Normal _ _ _ _ _ (init_run round2 persist w)).
  set (tr := mkTracker _ None). set (w0 := mkWorld _ _).
  assert (Hself : trackers w0 !! new_tracker w = Some tr) by apply lookup_insert_eq.
  assert (Hget : TrackChatbotResponseMetrics.getattr_chatbotResponsMetrics
                   (new_tracker w) w0 = (Raised AttributeError, w0)).
  { rewrite (getattr_chatbotResponsMetrics_live (new_tracker w) tr w0 Hself).
    reflexivity. }
  unfold TrackChatbotResponseMetrics.__exit__. destruct type as [e|].
  - rewrite bind_W, (bind_W_Raised _ _ _ _ _ Hget). reflexivity.
  - rewrite bind_W_ret.
    rewrite (bind_W_Normal _ _ _ _ _ (getattr_persist_live _ tr w0 Hself)).
    rewrite (bind_W_Raised _ _ _ _ _ Hget). reflexivity.
Qed.

(** X23: two scopes have two records.  Entering a second scope, on the
    same tracker or another, returns an address different from the first
    scope's, and running a whole protocol on the second record leaves the
    first record empty as it was. *)
Theorem scopes_have_separate_records
    (first second : loc) (tr1 tr2 : TrackerObject) (ev : Event.t) (w : World) :
  trackers w !! first = Some tr1 ->
  trackers (entered_world first tr1 w) !! second = Some tr2 ->
  let l1 := scope_record (store w) in
  let w1 := entered_world first tr1 w in
  let l2 := scope_record (store w1) in
  let w2 := entered_world second tr2 w1 in
  TrackChatbotResponseMetrics.__enter__ first w = (Normal l1, w1) ∧
  TrackChatbotResponseMetrics.__enter__ second w1 = (Normal l2, w2) ∧
  l1 ≠ l2 ∧
  (liftM (protocol_body ev l2) w2).1 = Normal tt ∧
  heap (store (liftM (protocol_body ev l2) w2).2) !! l1 = Some BotMetrics.new.
Proof.
  intros H1 H2 l1 w1 l2 w2.
  assert (Hne : l1 ≠ l2).
  { intros Heq. pose proof (entered_live (store w)) as Ha.
    pose proof (scope_record_fresh (store w1)) as Hb.
    fold l1 in Ha. fold l2 in Hb. rewrite <- Heq in Hb.
    change (store w1) with (entered (store w)) in Hb. congruence. }
  split; [apply (enter_live first tr1 w H1)|].
  split; [apply (enter_live second tr2 w1 H2)|].
  split; [exact Hne|].
  rewrite (liftM_run (protocol_body ev l2) w2 _ _
             (protocol_body_run ev l2 BotMetrics.new (store w2)
                (entered_live (store w1)))).
  split; [reflexivity|]. cbn [snd store heap set_heap set_ticks].
  rewrite lookup_insert_ne by exact (not_eq_sym Hne).
  change (heap (store w2)) with (<[l2 := BotMetrics.new]> (heap (store w1))).
  rewrite lookup_insert_ne by exact (not_eq_sym Hne).
  apply (entered_live (store w)).
Qed.

Lemma scopes_have_separate_records_witness :
  let tr := mkTracker PersistMetrics.new None in
  let w := mkWorld boot {[ 0%nat := tr ]} in
  trackers w !! 0%nat = Some tr ∧
  trackers (entered_world 0%nat tr w) !! 0%nat
  = Some (mkTracker PersistMetrics.new (Some 0%nat)) ∧
  TrackChatbotResponseMetrics.__enter__ 0%nat (entered_world 0%nat tr w)
  = (Normal 1%nat,
     entered_world 0%nat (mkTracker PersistMetrics.new (Some 0%nat))
       (entered_world 0%nat tr w)).
Proof.
  intros tr w. split; [reflexivity|]. split; [reflexivity|].
  apply (proj1 (proj2 (scopes_have_separate_records 0%nat 0%nat tr
                         (mkTracker PersistMetrics.new (Some 0%nat))
                         hello_event w eq_refl eq_refl))).
Defined.
